(** * nabstime: AbsoluteTime, RelativeTime and TimeInterval

    A shallow embedding of src/common/backend/utils/adt/nabstime.cpp.
    The C [int32] and [int64] values are integers of [Z] together with their
    wrap-around; a function that leaves through [ereport(ERROR, ...)] returns
    [Err]; memory obtained from [palloc] is passed in explicitly, since the
    allocator does not clear it. *)

From Stdlib Require Import ZArith Lia List String Ascii Bool DecimalString.
From Stdlib.Strings Require Import Byte.
Import ListNotations.
Local Open Scope Z_scope.

(** ** Machine integers *)

Definition INT_MIN : Z := -2147483648.
Definition INT_MAX : Z := 2147483647.

Definition int32 (z : Z) : Prop := INT_MIN <= z <= INT_MAX.
Definition int64 (z : Z) : Prop := - 9223372036854775808 <= z <= 9223372036854775807.

(** The value a two's-complement 32-bit (64-bit) register holds after an
    operation whose exact result is [z]. *)
Definition wrap32 (z : Z) : Z := (z + 2147483648) mod 4294967296 - 2147483648.
Definition wrap64 (z : Z) : Z :=
  (z + 9223372036854775808) mod 18446744073709551616 - 9223372036854775808.

Definition add32 (a b : Z) : Z := wrap32 (a + b).
Definition sub32 (a b : Z) : Z := wrap32 (a - b).
Definition neg32 (a : Z) : Z := wrap32 (- a).
Definition mul32 (a b : Z) : Z := wrap32 (a * b).
Definition add64 (a b : Z) : Z := wrap64 (a + b).
Definition mul64 (a b : Z) : Z := wrap64 (a * b).

(** ** utils/datetime.h: the kinds of a scanned field and of a decoded value *)

Inductive dtk : Type :=
| DTK_NUMBER | DTK_STRING | DTK_DATE | DTK_TIME | DTK_TZ | DTK_SPECIAL
| DTK_INVALID | DTK_EARLY | DTK_LATE | DTK_EPOCH | DTK_DELTA
| DTK_unset.

Definition dtk_eqb (a b : dtk) : bool :=
  match a, b with
  | DTK_NUMBER, DTK_NUMBER | DTK_STRING, DTK_STRING | DTK_DATE, DTK_DATE
  | DTK_TIME, DTK_TIME | DTK_TZ, DTK_TZ | DTK_SPECIAL, DTK_SPECIAL
  | DTK_INVALID, DTK_INVALID | DTK_EARLY, DTK_EARLY | DTK_LATE, DTK_LATE
  | DTK_EPOCH, DTK_EPOCH | DTK_DELTA, DTK_DELTA | DTK_unset, DTK_unset => true
  | _, _ => false
  end.

(** ** Errors *)

(** The errors this file raises; each carries what the message names. *)
Inductive ereport : Type :=
| ERRCODE_INVALID_DATETIME_FORMAT (i_string : string)
| ERRCODE_INVALID_BINARY_REPRESENTATION
| ERRCODE_FEATURE_NOT_SUPPORTED
| ERRCODE_UNRECOGNIZED_NODE_TYPE (dtype : dtk) (str : string)
| ERRCODE_PROTOCOL_VIOLATION
| DateTimeParseError (dterr : Z) (str : string).

Inductive result (A : Type) : Type :=
| Ok (a : A)
| Err (e : ereport).
Arguments Ok {A} a.
Arguments Err {A} e.

Definition bind {A B : Type} (r : result A) (k : A -> result B) : result B :=
  match r with
  | Ok a => k a
  | Err e => Err e
  end.

Notation "x <- r ;; k" := (bind r (fun x => k))
  (at level 61, r at next level, right associativity).
Notation "' p <- r ;; k" := (bind r (fun p => k))
  (at level 61, p pattern, r at next level, right associativity).

(** ** utils/nabstime.h

    nabstime.cpp takes its reserved values and the macro
    [AbsoluteTimeIsReal] from this header and fixes none of them itself.
    They are the fields of a class, and every function below is written
    against an arbitrary instance. *)

Class nabstime_h : Type := {
  INVALID_ABSTIME : Z;
  NOEND_ABSTIME : Z;
  NOSTART_ABSTIME : Z;
  INVALID_RELTIME : Z;
  AbsoluteTimeIsReal : Z -> bool
}.

(** What the development assumes of a header: the reserved values are 32-bit
    integers, the epoch lies strictly between minus infinity and infinity, no
    reserved value is real, and everything strictly between the two infinities
    (INVALID apart) is real. *)
Record nabstime_h_ok (h : nabstime_h) : Prop := {
  INVALID_ABSTIME_int32 : int32 INVALID_ABSTIME;
  NOEND_ABSTIME_int32 : int32 NOEND_ABSTIME;
  NOSTART_ABSTIME_int32 : int32 NOSTART_ABSTIME;
  INVALID_RELTIME_int32 : int32 INVALID_RELTIME;
  NOSTART_before_epoch : NOSTART_ABSTIME < 0;
  NOEND_after_epoch : 0 < NOEND_ABSTIME;
  INVALID_not_real : AbsoluteTimeIsReal INVALID_ABSTIME = false;
  NOSTART_not_real : AbsoluteTimeIsReal NOSTART_ABSTIME = false;
  NOEND_not_real : AbsoluteTimeIsReal NOEND_ABSTIME = false;
  between_real : forall t, NOSTART_ABSTIME < t < NOEND_ABSTIME ->
                           t <> INVALID_ABSTIME -> AbsoluteTimeIsReal t = true
}.

(** #define T_INTERVAL_INVAL 0, #define T_INTERVAL_VALID 1 *)
Definition T_INTERVAL_INVAL : Z := 0.
Definition T_INTERVAL_VALID : Z := 1.

(** typedef struct { int32 status; AbsoluteTime data[2]; } TimeIntervalData *)
Record TimeIntervalData : Type := {
  status : Z;
  data0 : Z;
  data1 : Z
}.

Section Nabstime.

Context {h : nabstime_h}.

(** Modelled from the spec: the macro RelativeTimeIsValid of utils/nabstime.h;
    a relative time is valid when it is not the INVALID sentinel. *)
Definition RelativeTimeIsValid (t : Z) : bool := negb (t =? INVALID_RELTIME).

(** The values an AbsoluteTime takes in the data model: one of the three
    sentinels, or a number of seconds strictly between the two infinities. *)
Definition AbsoluteTime_value (t : Z) : Prop :=
  t = INVALID_ABSTIME \/ t = NOSTART_ABSTIME \/ t = NOEND_ABSTIME \/
  NOSTART_ABSTIME < t < NOEND_ABSTIME.

(** *** abstime comparison routines *)

Definition abstime_cmp_internal (a b : Z) : Z :=
  if a =? INVALID_ABSTIME then
    if b =? INVALID_ABSTIME then 0 else 1
  else if b =? INVALID_ABSTIME then -1
  else if a >? b then 1
  else if a =? b then 0
  else -1.

Definition abstimeeq (t1 t2 : Z) : bool := abstime_cmp_internal t1 t2 =? 0.
Definition abstimene (t1 t2 : Z) : bool := negb (abstime_cmp_internal t1 t2 =? 0).
Definition abstimelt (t1 t2 : Z) : bool := abstime_cmp_internal t1 t2 <? 0.
Definition abstimegt (t1 t2 : Z) : bool := abstime_cmp_internal t1 t2 >? 0.
Definition abstimele (t1 t2 : Z) : bool := abstime_cmp_internal t1 t2 <=? 0.
Definition abstimege (t1 t2 : Z) : bool := abstime_cmp_internal t1 t2 >=? 0.
Definition btabstimecmp (t1 t2 : Z) : Z := abstime_cmp_internal t1 t2.

(** #define ABSTIMEMIN(t1, t2) (abstimele(t1, t2) ? (t1) : (t2)) *)
Definition ABSTIMEMIN (t1 t2 : Z) : Z := if abstimele t1 t2 then t1 else t2.
(** #define ABSTIMEMAX(t1, t2) (abstimelt(t1, t2) ? (t2) : (t1)) *)
Definition ABSTIMEMAX (t1 t2 : Z) : Z := if abstimelt t1 t2 then t2 else t1.

(** *** reltime comparison routines *)

Definition reltime_cmp_internal (a b : Z) : Z :=
  if a =? INVALID_RELTIME then
    if b =? INVALID_RELTIME then 0 else 1
  else if b =? INVALID_RELTIME then -1
  else if a >? b then 1
  else if a =? b then 0
  else -1.

Definition btreltimecmp (t1 t2 : Z) : Z := reltime_cmp_internal t1 t2.

(** *** mktinterval

    [mem] is the block palloc returned; the function writes the status, and
    the two endpoints only in the else branch. *)
Definition mktinterval (mem : TimeIntervalData) (t1 t2 : Z) : TimeIntervalData :=
  let tstart := ABSTIMEMIN t1 t2 in
  let tend := ABSTIMEMAX t1 t2 in
  if (t1 =? INVALID_ABSTIME) || (t2 =? INVALID_ABSTIME) then
    {| status := T_INTERVAL_INVAL; data0 := data0 mem; data1 := data1 mem |}
  else
    {| status := T_INTERVAL_VALID; data0 := tstart; data1 := tend |}.

(** *** timepl, timemi *)

Definition timepl (t1 t2 : Z) : Z :=
  if AbsoluteTimeIsReal t1 && RelativeTimeIsValid t2 &&
     (((t2 >? 0) && (t1 <? sub32 NOEND_ABSTIME t2)) ||
      ((t2 <=? 0) && (t1 >? sub32 NOSTART_ABSTIME t2)))
  then add32 t1 t2
  else INVALID_ABSTIME.

Definition timemi (t1 t2 : Z) : Z :=
  if AbsoluteTimeIsReal t1 && RelativeTimeIsValid t2 &&
     (((t2 >? 0) && (t1 >? add32 NOSTART_ABSTIME t2)) ||
      ((t2 <=? 0) && (t1 <? add32 NOEND_ABSTIME t2)))
  then sub32 t1 t2
  else INVALID_ABSTIME.

(** *** tintervalsame and the tinterval comparison routines *)

Definition tintervalsame (i1 i2 : TimeIntervalData) : bool :=
  if (status i1 =? T_INTERVAL_INVAL) || (status i2 =? T_INTERVAL_INVAL) then false
  else if abstimeeq (data0 i1) (data0 i2) && abstimeeq (data1 i1) (data1 i2) then true
  else false.

Definition tinterval_invalid (a : TimeIntervalData) : bool :=
  (status a =? T_INTERVAL_INVAL) || (data0 a =? INVALID_ABSTIME) ||
  (data1 a =? INVALID_ABSTIME).

Definition tinterval_cmp_internal (a b : TimeIntervalData) : Z :=
  let a_invalid := tinterval_invalid a in
  let b_invalid := tinterval_invalid b in
  if a_invalid then
    if b_invalid then 0 else 1
  else if b_invalid then -1
  else
    let a_len := sub32 (data1 a) (data0 a) in
    let b_len := sub32 (data1 b) (data0 b) in
    if a_len >? b_len then 1
    else if a_len =? b_len then 0
    else -1.

Definition tintervaleq (i1 i2 : TimeIntervalData) : bool :=
  tinterval_cmp_internal i1 i2 =? 0.
Definition bttintervalcmp (i1 i2 : TimeIntervalData) : Z :=
  tinterval_cmp_internal i1 i2.

End Nabstime.

(** ** The wire primitives (libpq/pqformat)

    Modelled from the spec: pq_begintypsend, pq_sendint32, pq_endtypsend and
    pq_getmsgint, which nabstime.cpp calls and libpq/pqformat defines; an
    integer travels as four bytes, most significant first. *)

Definition byte_of_Z (z : Z) : byte :=
  match Byte.of_N (Z.to_N (z mod 256)) with
  | Some b => b
  | None => x00
  end.

Definition Z_of_byte (b : byte) : Z := Z.of_N (Byte.to_N b).

Record StringInfoData : Type := {
  data : list byte;
  cursor : nat
}.

Definition pq_begintypsend : list byte := [].

Definition pq_sendint32 (buf : list byte) (i : Z) : list byte :=
  let u := i mod 4294967296 in
  buf ++ [byte_of_Z (u / 16777216); byte_of_Z (u / 65536); byte_of_Z (u / 256); byte_of_Z u].

Definition pq_endtypsend (buf : list byte) : list byte := buf.

(** The message a receive function is handed for a value sent as [bytes]. *)
Definition message (bytes : list byte) : StringInfoData :=
  {| data := bytes; cursor := 0%nat |}.

(** pq_getmsgint(buf, 4): the unsigned integer at the cursor, which moves
    past it; a message that ends too early is an error. *)
Definition pq_getmsgint (buf : StringInfoData) : result (Z * StringInfoData) :=
  match skipn (cursor buf) (data buf) with
  | b3 :: b2 :: b1 :: b0 :: _ =>
      Ok (Z_of_byte b3 * 16777216 + Z_of_byte b2 * 65536 + Z_of_byte b1 * 256 + Z_of_byte b0,
          {| data := data buf; cursor := (cursor buf + 4)%nat |})
  | _ => Err ERRCODE_PROTOCOL_VIOLATION
  end.

Section Binary.

Context {h : nabstime_h}.



(** [mem] is the block palloc returned; all three fields are overwritten. *)
Definition tintervalrecv (mem : TimeIntervalData) (buf : StringInfoData)
  : result TimeIntervalData :=
  '(st, buf) <- pq_getmsgint buf ;;
  let tinterval := {| status := wrap32 st; data0 := data0 mem; data1 := data1 mem |} in
  '(d0, buf) <- pq_getmsgint buf ;;
  let tinterval := {| status := status tinterval; data0 := wrap32 d0; data1 := data1 tinterval |} in
  '(d1, buf) <- pq_getmsgint buf ;;
  let tinterval := {| status := status tinterval; data0 := data0 tinterval; data1 := wrap32 d1 |} in
  let status' :=
    if (data0 tinterval =? INVALID_ABSTIME) || (data1 tinterval =? INVALID_ABSTIME)
    then T_INTERVAL_INVAL else T_INTERVAL_VALID in
  if negb (status' =? status tinterval)
  then Err ERRCODE_INVALID_BINARY_REPRESENTATION
  else Ok tinterval.

Definition tintervalsend (tinterval : TimeIntervalData) : list byte :=
  let buf := pq_begintypsend in
  let buf := pq_sendint32 buf (status tinterval) in
  let buf := pq_sendint32 buf (data0 tinterval) in
  let buf := pq_sendint32 buf (data1 tinterval) in
  pq_endtypsend buf.

End Binary.

(** ** Interval and the conversions between it and RelativeTime *)

(** typedef struct { TimeOffset time; int32 day; int32 month; } Interval,
    with the 64-bit TimeOffset of HAVE_INT64_TIMESTAMP (microseconds). *)
Record Interval : Type := {
  time : Z;
  day : Z;
  month : Z
}.

(** Modelled from the spec: the unit constants nabstime.cpp takes from
    datatype/timestamp.h: a year is 365.25 days, a month is 30 days, a day is
    86400 seconds. *)
Definition MONTHS_PER_YEAR : Z := 12.
Definition DAYS_PER_MONTH : Z := 30.
Definition HOURS_PER_DAY : Z := 24.
Definition MINS_PER_HOUR : Z := 60.
Definition SECS_PER_MINUTE : Z := 60.
Definition SECS_PER_DAY : Z := 86400.
Definition SECS_PER_YEAR : Z := 36525 * 864.
Definition USECS_PER_SEC : Z := 1000000.

Section Conversions.

Context {h : nabstime_h}.

(** The HAVE_INT64_TIMESTAMP branch; [/] and [%] of C truncate towards zero. *)
Definition interval_reltime_span (interval : Interval) : Z :=
  let year := Z.quot (month interval) MONTHS_PER_YEAR in
  let month := Z.rem (month interval) MONTHS_PER_YEAR in
  let day := day interval in
  let span :=
    add64 (mul64 (add64 (add64 (mul64 365250000 year) (mul64 30000000 month))
                        (mul64 1000000 day))
                 86400)
          (time interval) in
  Z.quot span USECS_PER_SEC.

Definition interval_reltime (interval : Interval) : Z :=
  let span := interval_reltime_span interval in
  if (span <? INT_MIN) || (span >? INT_MAX) then INVALID_RELTIME else span.

Definition reltime_interval (reltime : Z) : result Interval :=
  if reltime =? INVALID_RELTIME then Err ERRCODE_FEATURE_NOT_SUPPORTED
  else
    let year := Z.quot reltime SECS_PER_YEAR in
    let reltime := sub32 reltime (mul32 year SECS_PER_YEAR) in
    let month := Z.quot reltime (DAYS_PER_MONTH * SECS_PER_DAY) in
    let reltime := sub32 reltime (mul32 month (DAYS_PER_MONTH * SECS_PER_DAY)) in
    let day := Z.quot reltime SECS_PER_DAY in
    let reltime := sub32 reltime (mul32 day SECS_PER_DAY) in
    Ok {| time := mul64 reltime USECS_PER_SEC;
          month := add32 (mul32 MONTHS_PER_YEAR year) month;
          day := day |}.

End Conversions.

(** ** The calendar bridge, the date/time scanner and the session

    These are collaborators of the file: the time zone library
    (pg_localtime, pg_gmtime), utils/datetime (date2j, ParseDateTime,
    DecodeDateTime, EncodeDateTime and the texts of the reserved values) and
    the session and thread contexts.  They are the fields of two classes. *)

(** struct pg_tm, the members this file reads or writes *)
Record pg_tm : Type := {
  tm_sec : Z;
  tm_min : Z;
  tm_hour : Z;
  tm_mday : Z;
  tm_mon : Z;
  tm_year : Z;
  tm_isdst : Z;
  tm_gmtoff : Z;
  tm_zone : option string
}.

Class datetime_h : Type := {
  pg_localtime : Z -> pg_tm;
  pg_gmtime : Z -> pg_tm;
  date2j : Z -> Z -> Z -> Z;
  UNIX_EPOCH_JDATE : Z;
  MAXTZLEN : nat;
  (** dterr and the scanned fields, each with its ftype *)
  ParseDateTime : string -> Z * list (string * dtk);
  (** dterr, dtype, tm and tz for the fields handed over *)
  DecodeDateTime : list (string * dtk) -> Z * dtk * pg_tm * Z;
  (** the text for tm, tz and tzn, in the DateStyle of the session *)
  EncodeDateTime : pg_tm -> Z -> option string -> string;
  INVALID : string;
  LATE : string;
  EARLY : string
}.

Class knl_session : Type := {
  HasCTZSet : bool;
  CTimeZone : Z;
  IS_PGXC_COORDINATOR : bool;
  IS_PGXC_DATANODE : bool;
  IS_SINGLE_NODE : bool;
  is_abstimeout_in : bool;
  single_shard_stmt : bool;
  enable_light_proxy : bool
}.

(** #define MIN_DAYNUM (-24856), December 13, 1901;
    #define MAX_DAYNUM 24854, January 18, 2038 *)
Definition MIN_DAYNUM : Z := -24856.
Definition MAX_DAYNUM : Z := 24854.

(** #define IsSpace(C) ((C) == ' ') *)
Definition IsSpace (c : ascii) : bool := Ascii.eqb c " "%char.

Definition INVALID_INTERVAL_STR : string := "Undefined Range".

(** The double quote that delimits a date. *)
Definition dquote : ascii := "034"%char.

Section Text.

Context {h : nabstime_h} {dt : datetime_h} {sess : knl_session}.

(** abstime2tm; [tzp] and [tzn] tell whether the two pointers are non-null,
    [tz0] and [tzn0] are what they point to on entry. *)
Definition abstime2tm (_time : Z) (tzp tzn : bool) (tz0 : Z) (tzn0 : option string)
  : Z * pg_tm * option string :=
  let time := if HasCTZSet && tzp then _time - CTimeZone else _time in
  let tx := if negb HasCTZSet && tzp then pg_localtime time else pg_gmtime time in
  let tm := {| tm_year := add32 (tm_year tx) 1900;
               tm_mon := add32 (tm_mon tx) 1;
               tm_mday := tm_mday tx;
               tm_hour := tm_hour tx;
               tm_min := tm_min tx;
               tm_sec := tm_sec tx;
               tm_isdst := tm_isdst tx;
               tm_gmtoff := tm_gmtoff tx;
               tm_zone := tm_zone tx |} in
  if tzp then
    if HasCTZSet then
      (CTimeZone,
       {| tm_year := tm_year tm; tm_mon := tm_mon tm; tm_mday := tm_mday tm;
          tm_hour := tm_hour tm; tm_min := tm_min tm; tm_sec := tm_sec tm;
          tm_isdst := 0; tm_gmtoff := CTimeZone; tm_zone := None |},
       if tzn then None else tzn0)
    else
      (neg32 (tm_gmtoff tm), tm,
       if tzn then
         match tm_zone tm with
         | Some z => Some (substring 0 MAXTZLEN z)
         | None => None
         end
       else tzn0)
  else
    (tz0,
     {| tm_year := tm_year tm; tm_mon := tm_mon tm; tm_mday := tm_mday tm;
        tm_hour := tm_hour tm; tm_min := tm_min tm; tm_sec := tm_sec tm;
        tm_isdst := -1; tm_gmtoff := tm_gmtoff tm; tm_zone := tm_zone tm |},
     tzn0).

Definition tm2abstime (tm : pg_tm) (tz : Z) : Z :=
  if (tm_year tm <? 1901) || (tm_year tm >? 2038) || (tm_mon tm <? 1) ||
     (tm_mon tm >? MONTHS_PER_YEAR) || (tm_mday tm <? 1) || (tm_mday tm >? 31) ||
     (tm_hour tm <? 0) || (tm_hour tm >? HOURS_PER_DAY) ||
     ((tm_hour tm =? HOURS_PER_DAY) && ((tm_min tm >? 0) || (tm_sec tm >? 0))) ||
     (tm_min tm <? 0) || (tm_min tm >? MINS_PER_HOUR - 1) || (tm_sec tm <? 0) ||
     (tm_sec tm >? SECS_PER_MINUTE)
  then INVALID_ABSTIME
  else
    let day := sub32 (date2j (tm_year tm) (tm_mon tm) (tm_mday tm)) UNIX_EPOCH_JDATE in
    if (day <? MIN_DAYNUM) || (day >? MAX_DAYNUM) then INVALID_ABSTIME
    else
      let sec :=
        add32 (add32 (tm_sec tm) tz)
              (mul32 (add32 (tm_min tm)
                            (mul32 (add32 (mul32 day HOURS_PER_DAY) (tm_hour tm))
                                   MINS_PER_HOUR))
                     SECS_PER_MINUTE) in
      if ((day >=? MAX_DAYNUM - 10) && (sec <? 0)) ||
         ((day <=? MIN_DAYNUM + 10) && (sec >? 0))
      then INVALID_ABSTIME
      else if negb (AbsoluteTimeIsReal sec) then INVALID_ABSTIME
      else sec.

(** The ftype of the last scanned field, ftype[nf - 1]. *)
Definition last_ftype (fields : list (string * dtk)) : dtk :=
  snd (last fields (EmptyString, DTK_unset)).

(** The fields abstimein hands to DecodeDateTime: the first [nf] of them,
    [nf] being one less than their number where the code decrements it. *)
Definition first_nf (fields : list (string * dtk)) : list (string * dtk) :=
  let nf := Z.of_nat (List.length fields) in
  if (IS_PGXC_COORDINATOR || (IS_PGXC_DATANODE && negb IS_SINGLE_NODE)) &&
     is_abstimeout_in &&
     (dtk_eqb (last_ftype fields) DTK_STRING || dtk_eqb (last_ftype fields) DTK_TZ) &&
     (nf >? 1)
  then removelast fields
  else fields.

Definition abstimein (str : string) : result Z :=
  let '(dterr, fields) := ParseDateTime str in
  if negb (dterr =? 0) then Err (DateTimeParseError dterr str)
  else
    let '(dterr, dtype, tm, tz) := DecodeDateTime (first_nf fields) in
    if negb (dterr =? 0) then Err (DateTimeParseError dterr str)
    else
      match dtype with
      | DTK_DATE => Ok (tm2abstime tm tz)
      | DTK_EPOCH => Ok 0
      | DTK_LATE => Ok NOEND_ABSTIME
      | DTK_EARLY => Ok NOSTART_ABSTIME
      | DTK_INVALID => Ok INVALID_ABSTIME
      | _ => Err (ERRCODE_UNRECOGNIZED_NODE_TYPE dtype str)
      end.

(** abstimeout gives a text, except where it takes the length of a zone
    name that abstime2tm has set to the null pointer: there the C code has no
    defined result, and the model has none. *)
Definition abstimeout (time : Z) : option string :=
  if time =? INVALID_ABSTIME then Some INVALID
  else if time =? NOEND_ABSTIME then Some LATE
  else if time =? NOSTART_ABSTIME then Some EARLY
  else
    let '(tz, tm, tzn) := abstime2tm time true true 0 None in
    let buf := EncodeDateTime tm tz tzn in
    if IS_PGXC_COORDINATOR && (negb single_shard_stmt || negb enable_light_proxy) &&
       is_abstimeout_in
    then
      match tzn with
      | Some z => Some (substring 0 (String.length buf - String.length z) buf)
      | None => None
      end
    else Some buf.

(** *** parsetinterval *)

(** One of the loops that skip blanks up to a given character, with the test
    for the end of the string and the [p++] that follow it: the rest of the
    string after that character, or nothing where the code goes to bogus. *)
Fixpoint skip_blanks_upto (stop : ascii) (p : string) : option string :=
  match p with
  | EmptyString => None
  | String c p' =>
      if IsSpace c then skip_blanks_upto stop p'
      else if negb (Ascii.eqb c stop) then None
      else Some p'
  end.

(** The search for the end of a date: the date and the string after its
    closing quote, or nothing where the string ends first. *)
Fixpoint scan_date (p1 : string) : option (string * string) :=
  match p1 with
  | EmptyString => None
  | String c p1' =>
      if Ascii.eqb c dquote then Some (EmptyString, p1')
      else
        match scan_date p1' with
        | Some (date, rest) => Some (String c date, rest)
        | None => None
        end
  end.

Definition parsetinterval (i_string : string) : result (Z * Z) :=
  let bogus := Err (ERRCODE_INVALID_DATETIME_FORMAT i_string) in
  match skip_blanks_upto "["%char i_string with
  | None => bogus
  | Some p =>
  match skip_blanks_upto dquote p with
  | None => bogus
  | Some p =>
  if String.prefix INVALID_INTERVAL_STR p then bogus
  else
  match scan_date p with
  | None => bogus
  | Some (date1, p) =>
  i_start <- abstimein date1 ;;
  match skip_blanks_upto dquote p with
  | None => bogus
  | Some p =>
  match scan_date p with
  | None => bogus
  | Some (date2, p) =>
  i_end <- abstimein date2 ;;
  match skip_blanks_upto "]"%char p with
  | None => bogus
  | Some p =>
  match p with
  | EmptyString => Ok (i_start, i_end)
  | String _ _ => bogus
  end end end end end end end.

(** [mem] is the block palloc returned; all three fields are overwritten. *)
Definition tintervalin (mem : TimeIntervalData) (tintervalstr : string)
  : result TimeIntervalData :=
  '(t1, t2) <- parsetinterval tintervalstr ;;
  let st :=
    if (t1 =? INVALID_ABSTIME) || (t2 =? INVALID_ABSTIME)
    then T_INTERVAL_INVAL else T_INTERVAL_VALID in
  let i_start := ABSTIMEMIN t1 t2 in
  let i_end := ABSTIMEMAX t1 t2 in
  Ok {| status := st; data0 := i_start; data1 := i_end |}.

End Text.

(** ** The remaining operators of the three types *)

Section Operators.

Context {h : nabstime_h}.

Definition abstime_finite (abstime : Z) : bool :=
  negb (abstime =? INVALID_ABSTIME) && negb (abstime =? NOSTART_ABSTIME) &&
  negb (abstime =? NOEND_ABSTIME).

Definition reltimeeq (t1 t2 : Z) : bool := reltime_cmp_internal t1 t2 =? 0.
Definition reltimene (t1 t2 : Z) : bool := negb (reltime_cmp_internal t1 t2 =? 0).
Definition reltimelt (t1 t2 : Z) : bool := reltime_cmp_internal t1 t2 <? 0.
Definition reltimegt (t1 t2 : Z) : bool := reltime_cmp_internal t1 t2 >? 0.
Definition reltimele (t1 t2 : Z) : bool := reltime_cmp_internal t1 t2 <=? 0.
Definition reltimege (t1 t2 : Z) : bool := reltime_cmp_internal t1 t2 >=? 0.

Definition reltimerecv (buf : StringInfoData) : result Z :=
  '(v, _) <- pq_getmsgint buf ;;
  Ok (wrap32 v).

Definition reltimesend (time : Z) : list byte :=
  let buf := pq_begintypsend in
  let buf := pq_sendint32 buf time in
  pq_endtypsend buf.

Definition tintervalne (i1 i2 : TimeIntervalData) : bool :=
  negb (tinterval_cmp_internal i1 i2 =? 0).
Definition tintervallt (i1 i2 : TimeIntervalData) : bool :=
  tinterval_cmp_internal i1 i2 <? 0.
Definition tintervalle (i1 i2 : TimeIntervalData) : bool :=
  tinterval_cmp_internal i1 i2 <=? 0.
Definition tintervalgt (i1 i2 : TimeIntervalData) : bool :=
  tinterval_cmp_internal i1 i2 >? 0.
Definition tintervalge (i1 i2 : TimeIntervalData) : bool :=
  tinterval_cmp_internal i1 i2 >=? 0.

(** intinterval: is the absolute date in the tinterval *)
Definition intinterval (t : Z) (tinterval : TimeIntervalData) : bool :=
  if (status tinterval =? T_INTERVAL_VALID) && negb (t =? INVALID_ABSTIME) then
    if abstimege t (data0 tinterval) && abstimele t (data1 tinterval) then true
    else false
  else false.

(** tintervalrel: the relative time that corresponds to the tinterval *)
Definition tintervalrel (tinterval : TimeIntervalData) : Z :=
  let t1 := data0 tinterval in
  let t2 := data1 tinterval in
  if negb (status tinterval =? T_INTERVAL_VALID) then INVALID_RELTIME
  else if AbsoluteTimeIsReal t1 && AbsoluteTimeIsReal t2 then sub32 t2 t1
  else INVALID_RELTIME.

Definition tintervalleneq (i : TimeIntervalData) (t : Z) : bool :=
  if (status i =? T_INTERVAL_INVAL) || (t =? INVALID_RELTIME) then false
  else
    let rt := tintervalrel i in
    negb (rt =? INVALID_RELTIME) && (rt =? t).

Definition tintervallenne (i : TimeIntervalData) (t : Z) : bool :=
  if (status i =? T_INTERVAL_INVAL) || (t =? INVALID_RELTIME) then false
  else
    let rt := tintervalrel i in
    negb (rt =? INVALID_RELTIME) && negb (rt =? t).

Definition tintervallenlt (i : TimeIntervalData) (t : Z) : bool :=
  if (status i =? T_INTERVAL_INVAL) || (t =? INVALID_RELTIME) then false
  else
    let rt := tintervalrel i in
    negb (rt =? INVALID_RELTIME) && (rt <? t).

Definition tintervallengt (i : TimeIntervalData) (t : Z) : bool :=
  if (status i =? T_INTERVAL_INVAL) || (t =? INVALID_RELTIME) then false
  else
    let rt := tintervalrel i in
    negb (rt =? INVALID_RELTIME) && (rt >? t).

Definition tintervallenle (i : TimeIntervalData) (t : Z) : bool :=
  if (status i =? T_INTERVAL_INVAL) || (t =? INVALID_RELTIME) then false
  else
    let rt := tintervalrel i in
    negb (rt =? INVALID_RELTIME) && (rt <=? t).

Definition tintervallenge (i : TimeIntervalData) (t : Z) : bool :=
  if (status i =? T_INTERVAL_INVAL) || (t =? INVALID_RELTIME) then false
  else
    let rt := tintervalrel i in
    negb (rt =? INVALID_RELTIME) && (rt >=? t).

(** tintervalct: does tinterval i1 contain tinterval i2 *)
Definition tintervalct (i1 i2 : TimeIntervalData) : bool :=
  if (status i1 =? T_INTERVAL_INVAL) || (status i2 =? T_INTERVAL_INVAL) then false
  else if abstimele (data0 i1) (data0 i2) && abstimege (data1 i1) (data1 i2) then true
  else false.

(** tintervalov: does tinterval i1 (partially) overlap i2 *)
Definition tintervalov (i1 i2 : TimeIntervalData) : bool :=
  if (status i1 =? T_INTERVAL_INVAL) || (status i2 =? T_INTERVAL_INVAL) then false
  else if abstimelt (data1 i1) (data0 i2) || abstimegt (data0 i1) (data1 i2) then false
  else true.

Definition tintervalstart (i : TimeIntervalData) : Z :=
  if status i =? T_INTERVAL_INVAL then INVALID_ABSTIME else data0 i.

Definition tintervalend (i : TimeIntervalData) : Z :=
  if status i =? T_INTERVAL_INVAL then INVALID_ABSTIME else data1 i.

End Operators.

(** ** tintervalout

    The text is put together in a buffer of T_INTERVAL_LEN characters with
    strcpy_s and strcat_s of the secure C library; a call that returns an
    error makes securec_check raise.  The two calls are the fields of a
    class: the new content of the buffer, or nothing where the call fails. *)

Class securec_h : Type := {
  strcpy_s : nat -> string -> option string;
  strcat_s : string -> nat -> string -> option string
}.

(** What the development assumes of the two calls: with room for the text
    and its end mark they copy, respectively append. *)
Record securec_h_ok (sc : securec_h) : Prop := {
  strcpy_s_room : forall destMax src,
    (String.length src < destMax)%nat -> strcpy_s destMax src = Some src;
  strcat_s_room : forall dest destMax src,
    (String.length dest + String.length src < destMax)%nat ->
    strcat_s dest destMax src = Some (dest ++ src)%string
}.

(** #define T_INTERVAL_LEN 80 *)
Definition T_INTERVAL_LEN : nat := 80.

Definition obind {A B : Type} (o : option A) (k : A -> option B) : option B :=
  match o with
  | Some a => k a
  | None => None
  end.

Section Tintervalout.

Context {h : nabstime_h} {dt : datetime_h} {sess : knl_session} {sc : securec_h}.

(** tintervalout gives the text, or nothing where a securec_check raises
    or abstimeout has no result. *)
Definition tintervalout (tinterval : TimeIntervalData) : option string :=
  obind (strcpy_s T_INTERVAL_LEN (String "["%char (String dquote EmptyString))) (fun i_str =>
  obind
    (if status tinterval =? T_INTERVAL_INVAL then
       strcat_s i_str T_INTERVAL_LEN INVALID_INTERVAL_STR
     else
       obind (abstimeout (data0 tinterval)) (fun p =>
       obind (strcat_s i_str T_INTERVAL_LEN p) (fun i_str =>
       obind (strcat_s i_str T_INTERVAL_LEN
                (String dquote (String " "%char (String dquote EmptyString)))) (fun i_str =>
       obind (abstimeout (data1 tinterval)) (fun p =>
       strcat_s i_str T_INTERVAL_LEN p))))) (fun i_str =>
  strcat_s i_str T_INTERVAL_LEN (String dquote (String "]"%char EmptyString)))).

End Tintervalout.

(** ** reltimein

    The scanner of intervals (DecodeInterval, DecodeISO8601Interval) and the
    error codes of utils/datetime are the fields of a class. *)

Class interval_scanner : Type := {
  DTERR_BAD_FORMAT : Z;
  DTERR_FIELD_OVERFLOW : Z;
  DTERR_INTERVAL_OVERFLOW : Z;
  (** dterr, dtype and tm for the fields handed over, with INTERVAL_FULL_RANGE *)
  DecodeInterval : list (string * dtk) -> Z * dtk * pg_tm;
  (** dterr, dtype and tm for the whole string *)
  DecodeISO8601Interval : string -> Z * dtk * pg_tm
}.

(** A struct pg_tm that nothing has been written to yet. *)
Definition tm_unset : pg_tm :=
  {| tm_sec := 0; tm_min := 0; tm_hour := 0; tm_mday := 0; tm_mon := 0;
     tm_year := 0; tm_isdst := 0; tm_gmtoff := 0; tm_zone := None |}.

Section Reltimein.

Context {h : nabstime_h} {dt : datetime_h} {isc : interval_scanner}.

Definition reltimein (str : string) : result Z :=
  let '(dterr, fields) := ParseDateTime str in
  let '(dterr, dtype, tm) :=
    if dterr =? 0 then DecodeInterval fields else (dterr, DTK_unset, tm_unset) in
  let '(dterr, dtype, tm) :=
    if dterr =? DTERR_BAD_FORMAT then DecodeISO8601Interval str else (dterr, dtype, tm) in
  if negb (dterr =? 0) then
    let dterr := if dterr =? DTERR_FIELD_OVERFLOW then DTERR_INTERVAL_OVERFLOW else dterr in
    Err (DateTimeParseError dterr str)
  else
    match dtype with
    | DTK_DELTA =>
        let result :=
          add32 (mul32 (add32 (mul32 (tm_hour tm) MINS_PER_HOUR) (tm_min tm)) SECS_PER_MINUTE)
                (tm_sec tm) in
        Ok (add32 result
              (add32 (mul32 (tm_year tm) SECS_PER_YEAR)
                     (mul32 (add32 (mul32 (tm_mon tm) DAYS_PER_MONTH) (tm_mday tm))
                            SECS_PER_DAY)))
    | _ => Err (ERRCODE_UNRECOGNIZED_NODE_TYPE dtype str)
    end.

End Reltimein.

(** ** An instance of the header, of the collaborators and of the session

    The reserved AbsoluteTime values sit at the two ends of the 32-bit range
    and INVALID_RELTIME is the minimum integer, as the data model has it.  The
    calendar is the proleptic Gregorian one in Julian day numbers, the session
    runs in UTC on a single node, and the date text lists the fields of the
    date in decimal. *)

Definition nabstime_h_inst : nabstime_h := {|
  INVALID_ABSTIME := 2147483646;
  NOEND_ABSTIME := 2147483644;
  NOSTART_ABSTIME := INT_MIN;
  INVALID_RELTIME := INT_MIN;
  AbsoluteTimeIsReal := fun t => (t <? 2147483644) && negb (t =? INT_MIN)
|}.

Definition gregorian_date2j (y m d : Z) : Z :=
  let m' := if m >? 2 then m + 1 else m + 13 in
  let y' := if m >? 2 then y + 4800 else y + 4799 in
  let century := Z.quot y' 100 in
  y' * 365 - 32167 + (Z.quot y' 4 - century + Z.quot century 4) +
  (Z.quot (7834 * m') 256 + d).

Definition gregorian_j2date (jd : Z) : Z * Z * Z :=
  let julian := jd + 32044 in
  let quad := julian / 146097 in
  let extra := (julian - quad * 146097) * 4 + 3 in
  let julian := julian + (60 + quad * 3 + extra / 146097) in
  let quad := julian / 1461 in
  let julian := julian - quad * 1461 in
  let y := julian * 4 / 1461 in
  let julian :=
    (if negb (y =? 0) then (julian + 305) mod 365 else (julian + 306) mod 366) + 123 in
  let y := y + quad * 4 in
  let quad := julian * 2141 / 65536 in
  (y - 4800, (quad + 10) mod 12 + 1, julian - 7834 * quad / 256).

Definition utc_gmtime (t : Z) : pg_tm :=
  let '(y, m, d) := gregorian_j2date (t / 86400 + 2440588) in
  let s := t mod 86400 in
  {| tm_sec := s mod 60; tm_min := (s / 60) mod 60; tm_hour := s / 3600;
     tm_mday := d; tm_mon := m - 1; tm_year := y - 1900;
     tm_isdst := 0; tm_gmtoff := 0; tm_zone := Some "UTC"%string |}.

Definition Z_to_string (z : Z) : string :=
  DecimalString.NilZero.string_of_int (Z.to_int z).

Definition Z_of_string (s : string) : option Z :=
  option_map Z.of_int (DecimalString.NilZero.int_of_string s).

Fixpoint split_blanks (word : string) (s : string) : list string :=
  match s with
  | EmptyString => [word]
  | String c s' =>
      if IsSpace c then word :: split_blanks EmptyString s'
      else split_blanks (word ++ String c EmptyString) s'
  end.

Definition plain_EncodeDateTime (tm : pg_tm) (tz : Z) (tzn : option string) : string :=
  String.concat " "
    (map Z_to_string [tm_year tm; tm_mon tm; tm_mday tm; tm_hour tm; tm_min tm; tm_sec tm; tz]
     ++ match tzn with Some z => [z] | None => [] end).

Definition plain_ParseDateTime (str : string) : Z * list (string * dtk) :=
  (0, map (fun f => (f, match Z_of_string f with Some _ => DTK_NUMBER | None => DTK_STRING end))
          (split_blanks EmptyString str)).

Definition plain_DecodeDateTime (fields : list (string * dtk)) : Z * dtk * pg_tm * Z :=
  match map (fun f => Z_of_string (fst f)) fields with
  | Some y :: Some mo :: Some d :: Some hh :: Some mi :: Some ss :: Some tz :: _ =>
      (0, DTK_DATE,
       {| tm_sec := ss; tm_min := mi; tm_hour := hh; tm_mday := d; tm_mon := mo;
          tm_year := y; tm_isdst := -1; tm_gmtoff := 0; tm_zone := None |}, tz)
  | _ =>
      (-1, DTK_unset,
       {| tm_sec := 0; tm_min := 0; tm_hour := 0; tm_mday := 0; tm_mon := 0;
          tm_year := 0; tm_isdst := -1; tm_gmtoff := 0; tm_zone := None |}, 0)
  end.

Definition datetime_h_inst : datetime_h := {|
  pg_localtime := utc_gmtime;
  pg_gmtime := utc_gmtime;
  date2j := gregorian_date2j;
  UNIX_EPOCH_JDATE := 2440588;
  MAXTZLEN := 10%nat;
  ParseDateTime := plain_ParseDateTime;
  DecodeDateTime := plain_DecodeDateTime;
  EncodeDateTime := plain_EncodeDateTime;
  INVALID := "invalid";
  LATE := "infinity";
  EARLY := "-infinity"
|}.

Definition knl_session_inst : knl_session := {|
  HasCTZSet := false;
  CTimeZone := 0;
  IS_PGXC_COORDINATOR := false;
  IS_PGXC_DATANODE := false;
  IS_SINGLE_NODE := true;
  is_abstimeout_in := false;
  single_shard_stmt := false;
  enable_light_proxy := false
|}.


(** A block of memory as palloc may return it, and a few texts. *)
Definition mem0 : TimeIntervalData := {| status := 7; data0 := 7; data1 := 7 |}.

Fixpoint blanks (n : nat) : string :=
  match n with
  | O => EmptyString
  | S n' => String " "%char (blanks n')
  end.

Definition quoted (s : string) : string :=
  String dquote (s ++ String dquote EmptyString).

(** An interval literal with its two dates in decreasing order. *)
Definition two_dates : string :=
  String "["%char
    (quoted "1970 1 2 0 0 0 0 UTC" ++ String " "%char (quoted "1970 1 1 0 0 0 0 UTC")
     ++ String "]"%char EmptyString)%string.

(** ** Properties the statements below are phrased with *)

Section Properties.

Context {h : nabstime_h} {dt : datetime_h} {sess : knl_session}.

(** [s] and [e] are [t1] and [t2] in the order of the abstime comparison. *)
Definition abstime_min_max (t1 t2 s e : Z) : Prop :=
  ((s = t1 /\ e = t2) \/ (s = t2 /\ e = t1)) /\ abstime_cmp_internal s e <= 0.

(** An interval that the tinterval comparison counts as invalid. *)
Definition invalid_tinterval (a : TimeIntervalData) : Prop :=
  status a = T_INTERVAL_INVAL \/ data0 a = INVALID_ABSTIME \/ data1 a = INVALID_ABSTIME.

(** The status that goes with two endpoints. *)
Definition status_of (t1 t2 : Z) : Z :=
  if (t1 =? INVALID_ABSTIME) || (t2 =? INVALID_ABSTIME)
  then T_INTERVAL_INVAL else T_INTERVAL_VALID.

(** The exact number of microseconds of an interval, and of seconds. *)
Definition flattened_usecs (interval : Interval) : Z :=
  (365250000 * Z.quot (month interval) 12 + 30000000 * Z.rem (month interval) 12 +
   1000000 * day interval) * 86400 + time interval.

Definition flattened_secs (interval : Interval) : Z :=
  Z.quot (flattened_usecs interval) 1000000.





End Properties.

(** ** Further instances and properties *)

(** The two calls of the secure C library, refusing what does not fit. *)
Definition securec_h_inst : securec_h := {|
  strcpy_s := fun destMax src =>
    if (String.length src <? destMax)%nat then Some src else None;
  strcat_s := fun dest destMax src =>
    if (String.length dest + String.length src <? destMax)%nat
    then Some (dest ++ src)%string else None
|}.

(** A scanner of intervals that reads years, months, days, hours, minutes
    and seconds in decimal. *)
Definition plain_DecodeInterval (fields : list (string * dtk)) : Z * dtk * pg_tm :=
  match map (fun f => Z_of_string (fst f)) fields with
  | [Some y; Some mo; Some d; Some hh; Some mi; Some ss] =>
      (0, DTK_DELTA,
       {| tm_sec := ss; tm_min := mi; tm_hour := hh; tm_mday := d; tm_mon := mo;
          tm_year := y; tm_isdst := 0; tm_gmtoff := 0; tm_zone := None |})
  | _ => (-1, DTK_unset, tm_unset)
  end.

Definition interval_scanner_inst : interval_scanner := {|
  DTERR_BAD_FORMAT := -1;
  DTERR_FIELD_OVERFLOW := -2;
  DTERR_INTERVAL_OVERFLOW := -4;
  DecodeInterval := plain_DecodeInterval;
  DecodeISO8601Interval := fun _ => (-1, DTK_unset, tm_unset)
|}.

(** A text without a double quote. *)
Fixpoint no_dquote (s : string) : bool :=
  match s with
  | EmptyString => true
  | String c s' => negb (Ascii.eqb c dquote) && no_dquote s'
  end.

(** The literal of a tinterval: two quoted dates in brackets, with blanks
    before the bracket, before each date and before the closing bracket. *)
Definition tinterval_literal (n1 n2 n3 n4 : nat) (date1 date2 : string) : string :=
  (blanks n1 ++ String "["%char
     (blanks n2 ++ quoted date1 ++ blanks n3 ++ quoted date2 ++ blanks n4
      ++ String "]"%char EmptyString))%string.

(** A VALID interval as tintervalin and mktinterval build it. *)
Definition canonical_tinterval {h : nabstime_h} (i : TimeIntervalData) : Prop :=
  status i = T_INTERVAL_VALID /\ data0 i <> INVALID_ABSTIME /\
  data1 i <> INVALID_ABSTIME /\ data0 i <= data1 i.

(** The fields of a date that tm2abstime lets through. *)
Definition valid_fields (tm : pg_tm) : bool :=
  (1901 <=? tm_year tm) && (tm_year tm <=? 2038) &&
  (1 <=? tm_mon tm) && (tm_mon tm <=? 12) &&
  (1 <=? tm_mday tm) && (tm_mday tm <=? 31) &&
  (0 <=? tm_hour tm) && (tm_hour tm <=? 24) &&
  ((tm_hour tm <? 24) || ((tm_min tm =? 0) && (tm_sec tm =? 0))) &&
  (0 <=? tm_min tm) && (tm_min tm <=? 59) &&
  (0 <=? tm_sec tm) && (tm_sec tm <=? 60).

(** The day of a date in days since the epoch, and the seconds since the
    epoch of a date in the zone [tz], both as exact integers. *)
Definition daynum {dt : datetime_h} (tm : pg_tm) : Z :=
  sub32 (date2j (tm_year tm) (tm_mon tm) (tm_mday tm)) UNIX_EPOCH_JDATE.

Definition epoch_seconds {dt : datetime_h} (tm : pg_tm) (tz : Z) : Z :=
  daynum tm * 86400 + tm_hour tm * 3600 + tm_min tm * 60 + tm_sec tm + tz.

(** The exact number of seconds of a span given by its fields. *)
Definition delta_seconds (tm : pg_tm) : Z :=
  tm_year tm * 31557600 + (tm_mon tm * 30 + tm_mday tm) * 86400 +
  (tm_hour tm * 60 + tm_min tm) * 60 + tm_sec tm.

(** ** Machine arithmetic *)


Lemma wrap32_id (z : Z) : int32 z -> wrap32 z = z.
Proof.
  unfold int32, INT_MIN, INT_MAX, wrap32. intros Hz.
  rewrite Z.mod_small; lia.
Qed.

Lemma wrap32_int32 (z : Z) : int32 (wrap32 z).
Proof.
  unfold int32, INT_MIN, INT_MAX, wrap32.
  pose proof (Z.mod_pos_bound (z + 2147483648) 4294967296). lia.
Qed.

Lemma wrap32_congr (a b : Z) :
  a mod 4294967296 = b mod 4294967296 -> wrap32 a = wrap32 b.
Proof.
  intros Hab. unfold wrap32.
  rewrite <- (Zplus_mod_idemp_l a), <- (Zplus_mod_idemp_l b), Hab. reflexivity.
Qed.

Lemma wrap64_id (z : Z) : int64 z -> wrap64 z = z.
Proof.
  unfold int64, wrap64. intros Hz.
  rewrite Z.mod_small; lia.
Qed.

(** ** The comparators and the arithmetic of the two scalars *)

Section Scalars.

Context {h : nabstime_h}.

Lemma abstime_cmp_internal_cases (a b : Z) :
  abstime_cmp_internal a b = 0 \/ abstime_cmp_internal a b = 1 \/
  abstime_cmp_internal a b = -1.
Proof.
  unfold abstime_cmp_internal.
  destruct (a =? INVALID_ABSTIME), (b =? INVALID_ABSTIME), (a >? b), (a =? b); auto.
Qed.

Lemma abstimeeq_eq (a b : Z) : abstimeeq a b = true <-> a = b.
Proof.
  unfold abstimeeq, abstime_cmp_internal.
  destruct (Z.eqb_spec a INVALID_ABSTIME) as [Ha | Ha];
    destruct (Z.eqb_spec b INVALID_ABSTIME) as [Hb | Hb]; simpl.
  - split; congruence.
  - split; [discriminate | congruence].
  - split; [discriminate | congruence].
  - destruct (Z.gtb_spec a b) as [Hgt | Hle]; simpl.
    + split; [discriminate | lia].
    + destruct (Z.eqb_spec a b); simpl; split; try discriminate; auto; lia.
Qed.

(** C5.  Both internal comparators return 0 on two INVALID operands, a
    positive value when only the first is INVALID, a negative value when only
    the second is, and otherwise the sign of the comparison of the two
    integers; NOSTART and NOEND take no special part in it. *)
Theorem cmp_internal_sentinel_policy (a b : Z) :
  ((a = INVALID_ABSTIME /\ b = INVALID_ABSTIME -> abstime_cmp_internal a b = 0) /\
   (a = INVALID_ABSTIME /\ b <> INVALID_ABSTIME -> abstime_cmp_internal a b > 0) /\
   (a <> INVALID_ABSTIME /\ b = INVALID_ABSTIME -> abstime_cmp_internal a b < 0) /\
   (a <> INVALID_ABSTIME /\ b <> INVALID_ABSTIME ->
      abstime_cmp_internal a b = Z.sgn (a - b))) /\
  ((a = INVALID_RELTIME /\ b = INVALID_RELTIME -> reltime_cmp_internal a b = 0) /\
   (a = INVALID_RELTIME /\ b <> INVALID_RELTIME -> reltime_cmp_internal a b > 0) /\
   (a <> INVALID_RELTIME /\ b = INVALID_RELTIME -> reltime_cmp_internal a b < 0) /\
   (a <> INVALID_RELTIME /\ b <> INVALID_RELTIME ->
      reltime_cmp_internal a b = Z.sgn (a - b))).
Proof.
  unfold abstime_cmp_internal, reltime_cmp_internal.
  split.
  - destruct (Z.eqb_spec a INVALID_ABSTIME), (Z.eqb_spec b INVALID_ABSTIME);
      repeat split; intros [Ha Hb]; try congruence; try lia.
    destruct (Z.gtb_spec a b); [lia |].
    destruct (Z.eqb_spec a b); lia.
  - destruct (Z.eqb_spec a INVALID_RELTIME), (Z.eqb_spec b INVALID_RELTIME);
      repeat split; intros [Ha Hb]; try congruence; try lia.
    destruct (Z.gtb_spec a b); [lia |].
    destruct (Z.eqb_spec a b); lia.
Qed.

(** On the values of the data model a time is real exactly when it is none
    of the three sentinels, and a real time lies between the infinities. *)
Lemma real_iff_no_sentinel (t : Z) :
  nabstime_h_ok h -> AbsoluteTime_value t ->
  (AbsoluteTimeIsReal t = true <->
   t <> INVALID_ABSTIME /\ t <> NOSTART_ABSTIME /\ t <> NOEND_ABSTIME).
Proof.
  intros Hok Hv. split.
  - intros Hr. repeat split; intros ->.
    + rewrite (INVALID_not_real h Hok) in Hr. discriminate.
    + rewrite (NOSTART_not_real h Hok) in Hr. discriminate.
    + rewrite (NOEND_not_real h Hok) in Hr. discriminate.
  - intros (Hi & Hs & He).
    destruct Hv as [Hv | [Hv | [Hv | Hv]]]; try contradiction.
    apply (between_real h Hok); assumption.
Qed.

Lemma real_between (t : Z) :
  nabstime_h_ok h -> AbsoluteTime_value t -> AbsoluteTimeIsReal t = true ->
  NOSTART_ABSTIME < t < NOEND_ABSTIME.
Proof.
  intros Hok Hv Hr.
  destruct Hv as [Hv | [Hv | [Hv | Hv]]]; try assumption; subst t.
  - rewrite (INVALID_not_real h Hok) in Hr. discriminate.
  - rewrite (NOSTART_not_real h Hok) in Hr. discriminate.
  - rewrite (NOEND_not_real h Hok) in Hr. discriminate.
Qed.

(** What timepl computes, with the guard read as a statement on the exact
    sum. *)
Lemma timepl_unfold (t1 t2 : Z) :
  nabstime_h_ok h -> int32 t1 -> int32 t2 -> AbsoluteTime_value t1 ->
  timepl t1 t2 =
    if AbsoluteTimeIsReal t1 && RelativeTimeIsValid t2 &&
       ((NOSTART_ABSTIME <? t1 + t2) && (t1 + t2 <? NOEND_ABSTIME))
    then t1 + t2 else INVALID_ABSTIME.
Proof.
  intros Hok H1 H2 Hv. unfold timepl.
  destruct (AbsoluteTimeIsReal t1) eqn:Hr; [| reflexivity].
  destruct (RelativeTimeIsValid t2); [| reflexivity]. simpl.
  pose proof (real_between t1 Hok Hv Hr) as Hb.
  pose proof (NOEND_ABSTIME_int32 h Hok) as He.
  pose proof (NOSTART_ABSTIME_int32 h Hok) as Hs.
  pose proof (NOSTART_before_epoch h Hok) as Hs0.
  pose proof (NOEND_after_epoch h Hok) as He0.
  unfold int32, INT_MIN, INT_MAX in *.
  unfold sub32, add32.
  destruct (Z.gtb_spec t2 0) as [Hpos | Hneg].
  - rewrite (wrap32_id (NOEND_ABSTIME - t2)) by (unfold int32, INT_MIN, INT_MAX; lia).
    replace (t2 <=? 0) with false by (symmetry; apply Z.leb_gt; lia).
    rewrite andb_false_l, orb_false_r, andb_true_l.
    replace (NOSTART_ABSTIME <? t1 + t2) with true by (symmetry; apply Z.ltb_lt; lia).
    rewrite andb_true_l.
    destruct (Z.ltb_spec t1 (NOEND_ABSTIME - t2)), (Z.ltb_spec (t1 + t2) NOEND_ABSTIME);
      try lia; try reflexivity.
    apply wrap32_id. unfold int32, INT_MIN, INT_MAX; lia.
  - rewrite (wrap32_id (NOSTART_ABSTIME - t2)) by (unfold int32, INT_MIN, INT_MAX; lia).
    replace (t2 <=? 0) with true by (symmetry; apply Z.leb_le; lia).
    rewrite andb_false_l, orb_false_l, andb_true_l.
    replace (t1 + t2 <? NOEND_ABSTIME) with true by (symmetry; apply Z.ltb_lt; lia).
    rewrite andb_true_r.
    destruct (Z.gtb_spec t1 (NOSTART_ABSTIME - t2)), (Z.ltb_spec NOSTART_ABSTIME (t1 + t2));
      try lia; try reflexivity.
    apply wrap32_id. unfold int32, INT_MIN, INT_MAX; lia.
Qed.

(** The same without an assumption on [t1] beyond its 32 bits, when the
    header counts it as real only between the two infinities. *)
Lemma timepl_guard (t1 t2 : Z) :
  nabstime_h_ok h -> int32 t1 -> int32 t2 ->
  (AbsoluteTimeIsReal t1 = true -> NOSTART_ABSTIME < t1 < NOEND_ABSTIME) ->
  timepl t1 t2 =
    if AbsoluteTimeIsReal t1 && RelativeTimeIsValid t2 &&
       ((NOSTART_ABSTIME <? t1 + t2) && (t1 + t2 <? NOEND_ABSTIME))
    then t1 + t2 else INVALID_ABSTIME.
Proof.
  intros Hok H1 H2 Hbetween. unfold timepl.
  destruct (AbsoluteTimeIsReal t1) eqn:Hr; [| reflexivity].
  destruct (RelativeTimeIsValid t2); [| reflexivity]. simpl.
  pose proof (Hbetween eq_refl) as Hb.
  pose proof (NOEND_ABSTIME_int32 h Hok) as He.
  pose proof (NOSTART_ABSTIME_int32 h Hok) as Hs.
  pose proof (NOSTART_before_epoch h Hok) as Hs0.
  pose proof (NOEND_after_epoch h Hok) as He0.
  unfold int32, INT_MIN, INT_MAX in *.
  unfold sub32, add32.
  destruct (Z.gtb_spec t2 0) as [Hpos | Hneg].
  - rewrite (wrap32_id (NOEND_ABSTIME - t2)) by (unfold int32, INT_MIN, INT_MAX; lia).
    replace (t2 <=? 0) with false by (symmetry; apply Z.leb_gt; lia).
    rewrite andb_false_l, orb_false_r, andb_true_l.
    replace (NOSTART_ABSTIME <? t1 + t2) with true by (symmetry; apply Z.ltb_lt; lia).
    rewrite andb_true_l.
    destruct (Z.ltb_spec t1 (NOEND_ABSTIME - t2)), (Z.ltb_spec (t1 + t2) NOEND_ABSTIME);
      try lia; try reflexivity.
    apply wrap32_id. unfold int32, INT_MIN, INT_MAX; lia.
  - rewrite (wrap32_id (NOSTART_ABSTIME - t2)) by (unfold int32, INT_MIN, INT_MAX; lia).
    replace (t2 <=? 0) with true by (symmetry; apply Z.leb_le; lia).
    rewrite andb_false_l, orb_false_l, andb_true_l.
    replace (t1 + t2 <? NOEND_ABSTIME) with true by (symmetry; apply Z.ltb_lt; lia).
    rewrite andb_true_r.
    destruct (Z.gtb_spec t1 (NOSTART_ABSTIME - t2)), (Z.ltb_spec NOSTART_ABSTIME (t1 + t2));
      try lia; try reflexivity.
    apply wrap32_id. unfold int32, INT_MIN, INT_MAX; lia.
Qed.

(** C3, as the code has it.  The header counting as real the 32-bit values
    strictly between NOSTART and NOEND that are not INVALID, and no others,
    timepl returns the exact sum of every 32-bit [t1] and [t2] when [t1] is
    real in that sense, [t2] is not INVALID and the sum lies strictly
    between NOSTART and NOEND, and INVALID_ABSTIME in every other case;
    adding 2 to NOEND - 1 gives INVALID_ABSTIME and 5 plus 3 is 8. *)
Theorem timepl_exact_or_invalid (t1 t2 : Z) :
  nabstime_h_ok h ->
  (forall t, int32 t -> AbsoluteTimeIsReal t = true ->
             NOSTART_ABSTIME < t < NOEND_ABSTIME) ->
  int32 t1 -> int32 t2 ->
  AbsoluteTimeIsReal 5 = true -> RelativeTimeIsValid 3 = true -> 8 < NOEND_ABSTIME ->
  (AbsoluteTimeIsReal t1 = true <->
   NOSTART_ABSTIME < t1 < NOEND_ABSTIME /\ t1 <> INVALID_ABSTIME) /\
  (AbsoluteTimeIsReal t1 = true /\ t2 <> INVALID_RELTIME /\
   NOSTART_ABSTIME < t1 + t2 < NOEND_ABSTIME ->
   timepl t1 t2 = t1 + t2) /\
  (~ (AbsoluteTimeIsReal t1 = true /\ t2 <> INVALID_RELTIME /\
      NOSTART_ABSTIME < t1 + t2 < NOEND_ABSTIME) ->
   timepl t1 t2 = INVALID_ABSTIME) /\
  timepl (NOEND_ABSTIME - 1) 2 = INVALID_ABSTIME /\
  timepl 5 3 = 8.
Proof.
  intros Hok Hreal H1 H2 H5 H3 H8.
  pose proof (NOEND_ABSTIME_int32 h Hok) as He.
  pose proof (NOSTART_before_epoch h Hok) as Hs0.
  pose proof (NOEND_after_epoch h Hok) as He0.
  assert (Hguard : timepl t1 t2 =
            if AbsoluteTimeIsReal t1 && RelativeTimeIsValid t2 &&
               ((NOSTART_ABSTIME <? t1 + t2) && (t1 + t2 <? NOEND_ABSTIME))
            then t1 + t2 else INVALID_ABSTIME)
    by (apply timepl_guard; try assumption; apply Hreal; assumption).
  split; [| split; [| split; [| split]]].
  - split.
    + intros Hr. split; [apply Hreal; assumption |].
      intros ->. rewrite (INVALID_not_real h Hok) in Hr. discriminate.
    + intros [Hb Hi]. apply (between_real h Hok); assumption.
  - intros (Hr & Hrel & Hsum).
    rewrite Hguard, Hr. unfold RelativeTimeIsValid.
    destruct (Z.eqb_spec t2 INVALID_RELTIME); [contradiction |]. simpl.
    destruct (Z.ltb_spec NOSTART_ABSTIME (t1 + t2)), (Z.ltb_spec (t1 + t2) NOEND_ABSTIME);
      try lia. reflexivity.
  - intros Hnot.
    rewrite Hguard.
    destruct (AbsoluteTimeIsReal t1) eqn:Hr; [| reflexivity].
    unfold RelativeTimeIsValid.
    destruct (Z.eqb_spec t2 INVALID_RELTIME); [reflexivity |]. simpl.
    destruct (Z.ltb_spec NOSTART_ABSTIME (t1 + t2)), (Z.ltb_spec (t1 + t2) NOEND_ABSTIME);
      try reflexivity.
    exfalso. apply Hnot. split; [reflexivity |]. split; [assumption | lia].
  - unfold timepl, sub32. simpl.
    unfold int32, INT_MIN, INT_MAX in He.
    rewrite (wrap32_id (NOEND_ABSTIME - 2)) by (unfold int32, INT_MIN, INT_MAX; lia).
    replace (NOEND_ABSTIME - 1 <? NOEND_ABSTIME - 2) with false
      by (symmetry; apply Z.ltb_ge; lia).
    rewrite andb_false_r. reflexivity.
  - unfold timepl, sub32, add32. rewrite H5, H3. simpl.
    unfold int32, INT_MIN, INT_MAX in He.
    rewrite (wrap32_id (NOEND_ABSTIME - 3)) by (unfold int32, INT_MIN, INT_MAX; lia).
    replace (5 <? NOEND_ABSTIME - 3) with true by (symmetry; apply Z.ltb_lt; lia).
    reflexivity.
Qed.

(** What timemi computes, with the guard read as a statement on the exact
    difference. *)
Lemma timemi_unfold (t1 t2 : Z) :
  nabstime_h_ok h -> int32 t1 -> int32 t2 -> AbsoluteTime_value t1 ->
  timemi t1 t2 =
    if AbsoluteTimeIsReal t1 && RelativeTimeIsValid t2 &&
       ((NOSTART_ABSTIME <? t1 - t2) && (t1 - t2 <? NOEND_ABSTIME))
    then t1 - t2 else INVALID_ABSTIME.
Proof.
  intros Hok H1 H2 Hv. unfold timemi.
  destruct (AbsoluteTimeIsReal t1) eqn:Hr; [| reflexivity].
  destruct (RelativeTimeIsValid t2); [| reflexivity]. simpl.
  pose proof (real_between t1 Hok Hv Hr) as Hb.
  pose proof (NOEND_ABSTIME_int32 h Hok) as He.
  pose proof (NOSTART_ABSTIME_int32 h Hok) as Hs.
  pose proof (NOSTART_before_epoch h Hok) as Hs0.
  pose proof (NOEND_after_epoch h Hok) as He0.
  unfold int32, INT_MIN, INT_MAX in *.
  unfold sub32, add32.
  destruct (Z.gtb_spec t2 0) as [Hpos | Hneg].
  - rewrite (wrap32_id (NOSTART_ABSTIME + t2)) by (unfold int32, INT_MIN, INT_MAX; lia).
    replace (t2 <=? 0) with false by (symmetry; apply Z.leb_gt; lia).
    rewrite andb_false_l, orb_false_r, andb_true_l.
    replace (t1 - t2 <? NOEND_ABSTIME) with true by (symmetry; apply Z.ltb_lt; lia).
    rewrite andb_true_r.
    destruct (Z.gtb_spec t1 (NOSTART_ABSTIME + t2)), (Z.ltb_spec NOSTART_ABSTIME (t1 - t2));
      try lia; try reflexivity.
    apply wrap32_id. unfold int32, INT_MIN, INT_MAX; lia.
  - rewrite (wrap32_id (NOEND_ABSTIME + t2)) by (unfold int32, INT_MIN, INT_MAX; lia).
    replace (t2 <=? 0) with true by (symmetry; apply Z.leb_le; lia).
    rewrite andb_false_l, orb_false_l, andb_true_l.
    replace (NOSTART_ABSTIME <? t1 - t2) with true by (symmetry; apply Z.ltb_lt; lia).
    rewrite andb_true_l.
    destruct (Z.ltb_spec t1 (NOEND_ABSTIME + t2)), (Z.ltb_spec (t1 - t2) NOEND_ABSTIME);
      try lia; try reflexivity.
    apply wrap32_id. unfold int32, INT_MIN, INT_MAX; lia.
Qed.

(** Subtracting a relative time is adding its negation, as long as the
    negation is again a valid relative time of 32 bits. *)
Lemma timemi_timepl_neg (t1 t2 : Z) :
  nabstime_h_ok h -> int32 t1 -> int32 t2 -> AbsoluteTime_value t1 ->
  int32 (- t2) -> t2 <> INVALID_RELTIME -> - t2 <> INVALID_RELTIME ->
  timemi t1 t2 = timepl t1 (- t2).
Proof.
  intros Hok H1 H2 Hv Hneg Hrel Hnrel.
  rewrite timemi_unfold, timepl_unfold by assumption.
  unfold RelativeTimeIsValid.
  destruct (Z.eqb_spec t2 INVALID_RELTIME); [contradiction |].
  destruct (Z.eqb_spec (- t2) INVALID_RELTIME); [contradiction |].
  replace (t1 + - t2) with (t1 - t2) by lia. reflexivity.
Qed.

(** C9.  With INVALID_RELTIME the minimum integer, subtracting a relative
    time other than INVALID is adding its negation, and subtracting INVALID
    gives INVALID_ABSTIME. *)
Theorem timemi_mirrors_timepl (t1 t2 : Z) :
  nabstime_h_ok h -> INVALID_RELTIME = INT_MIN ->
  int32 t1 -> int32 t2 -> AbsoluteTime_value t1 ->
  (t2 <> INVALID_RELTIME -> timemi t1 t2 = timepl t1 (- t2)) /\
  timemi t1 INVALID_RELTIME = INVALID_ABSTIME.
Proof.
  intros Hok Hmin H1 H2 Hv. split.
  - intros Hrel. apply timemi_timepl_neg; try assumption;
      rewrite Hmin in *; unfold int32, INT_MIN, INT_MAX in *; lia.
  - unfold timemi, RelativeTimeIsValid. rewrite Z.eqb_refl.
    rewrite andb_false_r. reflexivity.
Qed.

End Scalars.

(** ** Intervals: construction, comparison, identity *)

Section Intervals.

Context {h : nabstime_h} {dt : datetime_h} {sess : knl_session}.

Lemma abstime_cmp_internal_antisym (a b : Z) :
  abstime_cmp_internal b a = - abstime_cmp_internal a b.
Proof.
  unfold abstime_cmp_internal.
  destruct (Z.eqb_spec a INVALID_ABSTIME), (Z.eqb_spec b INVALID_ABSTIME);
    try reflexivity.
  destruct (Z.gtb_spec a b), (Z.gtb_spec b a), (Z.eqb_spec a b), (Z.eqb_spec b a);
    lia.
Qed.

Lemma ABSTIME_min_max (t1 t2 : Z) :
  abstime_min_max t1 t2 (ABSTIMEMIN t1 t2) (ABSTIMEMAX t1 t2).
Proof.
  unfold abstime_min_max, ABSTIMEMIN, ABSTIMEMAX, abstimele, abstimelt.
  destruct (abstime_cmp_internal_cases t1 t2) as [Hc | [Hc | Hc]].
  - assert (Heq : t1 = t2) by (apply abstimeeq_eq; unfold abstimeeq; rewrite Hc; reflexivity).
    rewrite Hc. simpl. subst t2. split; [left; split; reflexivity | lia].
  - rewrite Hc. simpl. rewrite abstime_cmp_internal_antisym, Hc.
    split; [right; split; reflexivity | lia].
  - rewrite Hc. simpl. rewrite Hc.
    split; [left; split; reflexivity | lia].
Qed.

Lemma status_of_INVAL (t1 t2 : Z) :
  status_of t1 t2 = T_INTERVAL_INVAL <-> t1 = INVALID_ABSTIME \/ t2 = INVALID_ABSTIME.
Proof.
  unfold status_of, T_INTERVAL_INVAL, T_INTERVAL_VALID.
  destruct (Z.eqb_spec t1 INVALID_ABSTIME), (Z.eqb_spec t2 INVALID_ABSTIME); simpl;
    split; auto; try discriminate; intros [? | ?]; contradiction.
Qed.

Lemma status_of_VALID (t1 t2 : Z) :
  status_of t1 t2 = T_INTERVAL_VALID <-> ~ (t1 = INVALID_ABSTIME \/ t2 = INVALID_ABSTIME).
Proof.
  unfold status_of, T_INTERVAL_INVAL, T_INTERVAL_VALID.
  destruct (Z.eqb_spec t1 INVALID_ABSTIME), (Z.eqb_spec t2 INVALID_ABSTIME); simpl;
    split; auto; try discriminate; try (intros Hn; exfalso; apply Hn; auto).
  intros _ [? | ?]; contradiction.
Qed.

Lemma cmp_le_numeric (s e : Z) :
  s <> INVALID_ABSTIME -> e <> INVALID_ABSTIME -> abstime_cmp_internal s e <= 0 -> s <= e.
Proof.
  unfold abstime_cmp_internal. intros Hs He.
  destruct (Z.eqb_spec s INVALID_ABSTIME); [contradiction |].
  destruct (Z.eqb_spec e INVALID_ABSTIME); [contradiction |].
  destruct (Z.gtb_spec s e); lia.
Qed.

(** C2, what the two constructors do.  tintervalin stores the two parsed
    times in the order of the abstime comparison whatever they are;
    mktinterval, which computes the same two values for every input, stores
    them when neither time is INVALID and misses the assignment otherwise,
    the endpoints staying what the allocated block held.  Both set the
    status to INVAL exactly when one of the times is INVALID, and to VALID
    otherwise; an interval they mark VALID has its start no later than its
    end. *)
Theorem interval_construction (mem : TimeIntervalData) (t1 t2 : Z) (str : string) :
  (parsetinterval str = Ok (t1, t2) ->
   exists i, tintervalin mem str = Ok i /\
     abstime_min_max t1 t2 (data0 i) (data1 i) /\
     (status i = T_INTERVAL_INVAL <-> t1 = INVALID_ABSTIME \/ t2 = INVALID_ABSTIME) /\
     (status i = T_INTERVAL_VALID <-> ~ (t1 = INVALID_ABSTIME \/ t2 = INVALID_ABSTIME)) /\
     (status i = T_INTERVAL_VALID -> data0 i <= data1 i)) /\
  (let i := mktinterval mem t1 t2 in
   (status i = T_INTERVAL_INVAL <-> t1 = INVALID_ABSTIME \/ t2 = INVALID_ABSTIME) /\
   (status i = T_INTERVAL_VALID <-> ~ (t1 = INVALID_ABSTIME \/ t2 = INVALID_ABSTIME)) /\
   (status i = T_INTERVAL_VALID ->
      abstime_min_max t1 t2 (data0 i) (data1 i) /\ data0 i <= data1 i) /\
   (status i = T_INTERVAL_INVAL -> data0 i = data0 mem /\ data1 i = data1 mem)).
Proof.
  pose proof (ABSTIME_min_max t1 t2) as Hmm.
  pose proof (status_of_INVAL t1 t2) as Hinv.
  pose proof (status_of_VALID t1 t2) as Hval.
  assert (Hord : ~ (t1 = INVALID_ABSTIME \/ t2 = INVALID_ABSTIME) ->
                 ABSTIMEMIN t1 t2 <= ABSTIMEMAX t1 t2).
  { intros Hn. destruct Hmm as [Hperm Hcmp].
    apply cmp_le_numeric; [| | exact Hcmp];
      destruct Hperm as [[Hs He] | [Hs He]]; rewrite ?Hs, ?He;
      intros E; apply Hn; auto. }
  split.
  - intros Hparse. unfold tintervalin. rewrite Hparse. simpl.
    eexists. split; [reflexivity |]. simpl. fold (status_of t1 t2).
    split; [exact Hmm |]. split; [exact Hinv |]. split; [exact Hval |].
    intros Hst. apply Hord, Hval, Hst.
  - unfold mktinterval. unfold status_of in Hinv, Hval.
    destruct ((t1 =? INVALID_ABSTIME) || (t2 =? INVALID_ABSTIME));
      cbn [status data0 data1];
      (split; [exact Hinv |]); (split; [exact Hval |]); split.
    + intros Hst. discriminate Hst.
    + intros _. split; reflexivity.
    + intros Hst. split; [exact Hmm | apply Hord, Hval, Hst].
    + intros Hst. discriminate Hst.
Qed.

Lemma tinterval_invalid_iff (a : TimeIntervalData) :
  tinterval_invalid a = true <-> invalid_tinterval a.
Proof.
  unfold tinterval_invalid, invalid_tinterval.
  destruct (Z.eqb_spec (status a) T_INTERVAL_INVAL),
    (Z.eqb_spec (data0 a) INVALID_ABSTIME), (Z.eqb_spec (data1 a) INVALID_ABSTIME);
    simpl; split; auto; try discriminate; intros [? | [? | ?]]; contradiction.
Qed.

(** C4.  Two VALID intervals without an INVALID endpoint compare as their
    lengths do, each length being the 32-bit difference of the endpoints
    with wrap-around; where the intervals lie plays no part, so that
    [0,100] and [500,600] compare equal.  Two invalid intervals compare
    equal and an invalid one is greater than one that is not. *)
Theorem tinterval_cmp_by_length (a b : TimeIntervalData) :
  INVALID_ABSTIME <> 0 -> INVALID_ABSTIME <> 100 ->
  INVALID_ABSTIME <> 500 -> INVALID_ABSTIME <> 600 ->
  (status a = T_INTERVAL_VALID -> status b = T_INTERVAL_VALID ->
   data0 a <> INVALID_ABSTIME -> data1 a <> INVALID_ABSTIME ->
   data0 b <> INVALID_ABSTIME -> data1 b <> INVALID_ABSTIME ->
   tinterval_cmp_internal a b =
     Z.sgn (wrap32 (data1 a - data0 a) - wrap32 (data1 b - data0 b))) /\
  tinterval_cmp_internal {| status := T_INTERVAL_VALID; data0 := 0; data1 := 100 |}
                         {| status := T_INTERVAL_VALID; data0 := 500; data1 := 600 |} = 0 /\
  (invalid_tinterval a -> invalid_tinterval b -> tinterval_cmp_internal a b = 0) /\
  (invalid_tinterval a -> ~ invalid_tinterval b ->
   tinterval_cmp_internal a b > 0 /\ tinterval_cmp_internal b a < 0).
Proof.
  intros H0 H100 H500 H600.
  split; [| split; [| split]].
  - intros Ha Hb Ha0 Ha1 Hb0 Hb1.
    unfold tinterval_cmp_internal.
    assert (Hna : tinterval_invalid a = false).
    { destruct (tinterval_invalid a) eqn:E; [| reflexivity].
      apply tinterval_invalid_iff in E. destruct E as [E | [E | E]]; try contradiction.
      rewrite Ha in E. discriminate. }
    assert (Hnb : tinterval_invalid b = false).
    { destruct (tinterval_invalid b) eqn:E; [| reflexivity].
      apply tinterval_invalid_iff in E. destruct E as [E | [E | E]]; try contradiction.
      rewrite Hb in E. discriminate. }
    rewrite Hna, Hnb. unfold sub32.
    destruct (Z.gtb_spec (wrap32 (data1 a - data0 a)) (wrap32 (data1 b - data0 b)));
      [lia |].
    destruct (Z.eqb_spec (wrap32 (data1 a - data0 a)) (wrap32 (data1 b - data0 b))); lia.
  - unfold tinterval_cmp_internal, tinterval_invalid. cbn [status data0 data1].
    replace (0 =? INVALID_ABSTIME) with false by (symmetry; apply Z.eqb_neq; congruence).
    replace (100 =? INVALID_ABSTIME) with false by (symmetry; apply Z.eqb_neq; congruence).
    replace (500 =? INVALID_ABSTIME) with false by (symmetry; apply Z.eqb_neq; congruence).
    replace (600 =? INVALID_ABSTIME) with false by (symmetry; apply Z.eqb_neq; congruence).
    reflexivity.
  - intros Ha Hb. apply tinterval_invalid_iff in Ha, Hb.
    unfold tinterval_cmp_internal. rewrite Ha, Hb. reflexivity.
  - intros Ha Hb. apply tinterval_invalid_iff in Ha.
    assert (Hnb : tinterval_invalid b = false).
    { destruct (tinterval_invalid b) eqn:E; [| reflexivity].
      apply tinterval_invalid_iff in E. contradiction. }
    unfold tinterval_cmp_internal. rewrite Ha, Hnb. split; lia.
Qed.

(** C10.  tintervalsame is false as soon as one of the two intervals has
    status INVAL, also when both have, although tintervaleq holds of two
    such intervals; on two VALID intervals it is true exactly when the two
    starts are equal and the two ends are equal as abstimeeq has it. *)
Theorem tintervalsame_never_on_invalid (i1 i2 : TimeIntervalData) :
  (status i1 = T_INTERVAL_INVAL \/ status i2 = T_INTERVAL_INVAL ->
   tintervalsame i1 i2 = false) /\
  (status i1 = T_INTERVAL_INVAL /\ status i2 = T_INTERVAL_INVAL ->
   tintervalsame i1 i2 = false /\ tintervaleq i1 i2 = true) /\
  (status i1 = T_INTERVAL_VALID /\ status i2 = T_INTERVAL_VALID ->
   (tintervalsame i1 i2 = true <->
    abstimeeq (data0 i1) (data0 i2) = true /\ abstimeeq (data1 i1) (data1 i2) = true)).
Proof.
  assert (Hfalse : status i1 = T_INTERVAL_INVAL \/ status i2 = T_INTERVAL_INVAL ->
                   tintervalsame i1 i2 = false).
  { intros Hst. unfold tintervalsame.
    destruct (Z.eqb_spec (status i1) T_INTERVAL_INVAL); [reflexivity |].
    destruct (Z.eqb_spec (status i2) T_INTERVAL_INVAL); [reflexivity |].
    destruct Hst; contradiction. }
  split; [exact Hfalse | split].
  - intros [H1 H2]. split; [apply Hfalse; auto |].
    unfold tintervaleq, tinterval_cmp_internal, tinterval_invalid.
    rewrite H1, H2. reflexivity.
  - intros [H1 H2]. unfold tintervalsame. rewrite H1, H2. simpl.
    destruct (abstimeeq (data0 i1) (data0 i2)), (abstimeeq (data1 i1) (data1 i2));
      simpl; split; auto; try discriminate; intros [? ?]; discriminate.
Qed.

End Intervals.

(** ** The binary form *)

Lemma Z_of_byte_of_Z (z : Z) : Z_of_byte (byte_of_Z z) = z mod 256.
Proof.
  unfold Z_of_byte, byte_of_Z.
  pose proof (Z.mod_pos_bound z 256 ltac:(lia)) as Hb.
  pose proof (Byte.to_of_N_option_map (Z.to_N (z mod 256))) as Hm.
  destruct (Byte.of_N (Z.to_N (z mod 256))) as [b |]; simpl in Hm.
  - destruct (N.leb_spec (Z.to_N (z mod 256)) 255); [| discriminate].
    injection Hm as Hm. rewrite Hm. apply Z2N.id. lia.
  - destruct (N.leb_spec (Z.to_N (z mod 256)) 255); [discriminate | lia].
Qed.

(** The four bytes pq_sendint32 writes are read back as the same 32 bits. *)
Lemma sendint32_value (i : Z) :
  let u := i mod 4294967296 in
  Z_of_byte (byte_of_Z (u / 16777216)) * 16777216 +
  Z_of_byte (byte_of_Z (u / 65536)) * 65536 +
  Z_of_byte (byte_of_Z (u / 256)) * 256 +
  Z_of_byte (byte_of_Z u) = u.
Proof.
  intros u. rewrite !Z_of_byte_of_Z.
  pose proof (Z.mod_pos_bound i 4294967296 ltac:(lia)) as Hu. fold u in Hu.
  clearbody u. clear i.
  Z.div_mod_to_equations. lia.
Qed.

Lemma wrap32_of_unsigned (i : Z) : int32 i -> wrap32 (i mod 4294967296) = i.
Proof.
  intros Hi. rewrite <- (wrap32_id i Hi) at 2.
  apply wrap32_congr. apply Z.mod_mod. lia.
Qed.

Lemma pq_getmsgint_at (d : list byte) (n : nat) (b3 b2 b1 b0 : byte) (rest : list byte) :
  skipn n d = b3 :: b2 :: b1 :: b0 :: rest ->
  pq_getmsgint {| data := d; cursor := n |} =
    Ok (Z_of_byte b3 * 16777216 + Z_of_byte b2 * 65536 + Z_of_byte b1 * 256 + Z_of_byte b0,
        {| data := d; cursor := (n + 4)%nat |}).
Proof.
  intros Hs. unfold pq_getmsgint. cbn [data cursor]. rewrite Hs. reflexivity.
Qed.

Section BinaryForm.

Context {h : nabstime_h}.


(** C6.  tintervalrecv reads status, start and end, works out the status
    the two endpoints call for (INVAL when one of them is INVALID_ABSTIME,
    VALID otherwise) and raises the error exactly when the status read
    differs from it; otherwise it returns the three fields as read.  A VALID
    status with an INVALID start is refused. *)
Theorem tintervalrecv_checks_status (mem : TimeIntervalData) (st s e : Z) :
  int32 st -> int32 s -> int32 e ->
  let buf := message (tintervalsend {| status := st; data0 := s; data1 := e |}) in
  (st <> status_of s e ->
   tintervalrecv mem buf = Err ERRCODE_INVALID_BINARY_REPRESENTATION) /\
  (st = status_of s e ->
   tintervalrecv mem buf = Ok {| status := st; data0 := s; data1 := e |}) /\
  (st = T_INTERVAL_VALID -> s = INVALID_ABSTIME ->
   tintervalrecv mem buf = Err ERRCODE_INVALID_BINARY_REPRESENTATION).
Proof.
  intros Hst Hs He buf.
  assert (Hrecv : tintervalrecv mem buf =
                  if negb (status_of s e =? st)
                  then Err ERRCODE_INVALID_BINARY_REPRESENTATION
                  else Ok {| status := st; data0 := s; data1 := e |}).
  { unfold buf, tintervalrecv, message, tintervalsend, pq_endtypsend, pq_sendint32,
      pq_begintypsend.
    cbn [app status data0 data1].
    erewrite pq_getmsgint_at by reflexivity. cbn [bind].
    erewrite pq_getmsgint_at by reflexivity. cbn [bind].
    erewrite pq_getmsgint_at by reflexivity. cbn [bind].
    cbn [status data0 data1].
    rewrite !sendint32_value, !wrap32_of_unsigned by assumption.
    reflexivity. }
  rewrite Hrecv. split; [| split].
  - intros Hne. destruct (Z.eqb_spec (status_of s e) st); [congruence | reflexivity].
  - intros Heq. destruct (Z.eqb_spec (status_of s e) st); [reflexivity | congruence].
  - intros Hv Hi. subst st s. unfold status_of. rewrite Z.eqb_refl. reflexivity.
Qed.

End BinaryForm.

(** ** The interval literal *)

Section Literal.

Local Open Scope string_scope.

Context {h : nabstime_h} {dt : datetime_h} {sess : knl_session}.

Lemma skip_blanks_upto_found (stop : ascii) (n : nat) (p : string) :
  IsSpace stop = false ->
  skip_blanks_upto stop (blanks n ++ String stop p) = Some p.
Proof.
  intros Hstop. induction n as [| n IH]; simpl.
  - rewrite Hstop, Ascii.eqb_refl. reflexivity.
  - exact IH.
Qed.

Lemma skip_blanks_upto_other (stop c : ascii) (n : nat) (p : string) :
  IsSpace c = false -> Ascii.eqb c stop = false ->
  skip_blanks_upto stop (blanks n ++ String c p) = None.
Proof.
  intros Hc Hne. induction n as [| n IH]; simpl.
  - rewrite Hc, Hne. reflexivity.
  - exact IH.
Qed.

Lemma prefix_INVALID_INTERVAL_STR (rest : string) :
  String.prefix INVALID_INTERVAL_STR (INVALID_INTERVAL_STR ++ rest) = true.
Proof.
  apply String.prefix_correct. unfold INVALID_INTERVAL_STR. simpl.
  destruct rest; reflexivity.
Qed.

(** C1, as the code has it.  Where the first quoted date is expected, the
    literal Undefined Range is refused with the syntax error that names the
    input: right after the opening quote, in place of the quote, and in place
    of the opening bracket; nothing of the rest of the string is read, and no
    interval is returned. *)
Theorem undefined_range_is_a_syntax_error
    (mem : TimeIntervalData) (n1 n2 : nat) (rest : string) :
  let quoted_literal :=
    blanks n1 ++ String "["%char (blanks n2 ++ String dquote (INVALID_INTERVAL_STR ++ rest)) in
  let bare_in_bracket :=
    blanks n1 ++ String "["%char (blanks n2 ++ (INVALID_INTERVAL_STR ++ rest)) in
  let bare := blanks n1 ++ (INVALID_INTERVAL_STR ++ rest) in
  tintervalin mem quoted_literal = Err (ERRCODE_INVALID_DATETIME_FORMAT quoted_literal) /\
  tintervalin mem bare_in_bracket = Err (ERRCODE_INVALID_DATETIME_FORMAT bare_in_bracket) /\
  tintervalin mem bare = Err (ERRCODE_INVALID_DATETIME_FORMAT bare).
Proof.
  intros quoted_literal bare_in_bracket bare.
  unfold tintervalin, parsetinterval. repeat split.
  - unfold quoted_literal.
    rewrite skip_blanks_upto_found by reflexivity.
    rewrite skip_blanks_upto_found by reflexivity.
    rewrite prefix_INVALID_INTERVAL_STR. reflexivity.
  - unfold bare_in_bracket.
    rewrite skip_blanks_upto_found by reflexivity.
    unfold INVALID_INTERVAL_STR. cbn [append].
    rewrite skip_blanks_upto_other by reflexivity. reflexivity.
  - unfold bare, INVALID_INTERVAL_STR. cbn [append].
    rewrite skip_blanks_upto_other by reflexivity. reflexivity.
Qed.

End Literal.

(** ** Interval to RelativeTime and back *)

Lemma wrap64_congr (a b : Z) :
  a mod 18446744073709551616 = b mod 18446744073709551616 -> wrap64 a = wrap64 b.
Proof.
  intros Hab. unfold wrap64.
  rewrite <- (Zplus_mod_idemp_l a), <- (Zplus_mod_idemp_l b), Hab. reflexivity.
Qed.

(** A register holds the exact value up to a multiple of its size. *)
Lemma wrap64_ex (z : Z) : exists k, wrap64 z = z + 18446744073709551616 * k.
Proof.
  exists (- ((z + 9223372036854775808) / 18446744073709551616)).
  unfold wrap64. Z.div_mod_to_equations. lia.
Qed.

Lemma wrap32_ex (z : Z) : exists k, wrap32 z = z + 4294967296 * k.
Proof.
  exists (- ((z + 2147483648) / 4294967296)).
  unfold wrap32. Z.div_mod_to_equations. lia.
Qed.

Section Conversion.

Context {h : nabstime_h}.

(** The 64-bit computation of interval_reltime holds the exact number of
    microseconds, reduced to 64 bits. *)
Lemma interval_reltime_span_wraps (interval : Interval) :
  interval_reltime_span interval = Z.quot (wrap64 (flattened_usecs interval)) 1000000.
Proof.
  unfold interval_reltime_span, flattened_usecs, add64, mul64, MONTHS_PER_YEAR,
    USECS_PER_SEC.
  apply (f_equal (fun z => Z.quot z 1000000)).
  apply wrap64_congr.
  generalize (Z.quot (month interval) 12) (Z.rem (month interval) 12)
    (day interval) (time interval).
  intros y m d t.
  repeat match goal with
         | |- context [wrap64 ?z] =>
             let k := fresh "k" in
             let E := fresh "E" in
             destruct (wrap64_ex z) as [k E]; rewrite E; clear E
         end.
  Z.div_mod_to_equations. lia.
Qed.

(** While the microseconds fit 64 bits, interval_reltime is the exact number
    of seconds, or INVALID_RELTIME when that does not fit 32 bits. *)
Lemma interval_reltime_without_overflow (interval : Interval) :
  int64 (flattened_usecs interval) ->
  interval_reltime interval =
    if (flattened_secs interval <? INT_MIN) || (flattened_secs interval >? INT_MAX)
    then INVALID_RELTIME else flattened_secs interval.
Proof.
  intros Hfit. unfold interval_reltime.
  rewrite interval_reltime_span_wraps, wrap64_id by assumption. reflexivity.
Qed.

(** reltime_interval raises its error on INVALID_RELTIME and on nothing
    else; the years, months and days are quotients that truncate, by the
    seconds of a year, of a month and of a day, and the rest is the time. *)
Lemma reltime_interval_decomposes (reltime : Z) :
  int32 reltime ->
  (reltime = INVALID_RELTIME -> reltime_interval reltime = Err ERRCODE_FEATURE_NOT_SUPPORTED) /\
  (reltime <> INVALID_RELTIME ->
   let year := Z.quot reltime 31557600 in
   let r1 := Z.rem reltime 31557600 in
   let mon := Z.quot r1 2592000 in
   let r2 := Z.rem r1 2592000 in
   reltime_interval reltime =
     Ok {| time := Z.rem r2 86400 * 1000000;
           day := Z.quot r2 86400;
           month := 12 * year + mon |}).
Proof.
  intros Hr. split.
  - intros ->. unfold reltime_interval. rewrite Z.eqb_refl. reflexivity.
  - intros Hne year r1 mon r2. unfold reltime_interval.
    destruct (Z.eqb_spec reltime INVALID_RELTIME); [contradiction |].
    unfold SECS_PER_YEAR, DAYS_PER_MONTH, SECS_PER_DAY, USECS_PER_SEC, MONTHS_PER_YEAR.
    change (36525 * 864) with 31557600. change (30 * 86400) with 2592000.
    fold year.
    assert (H1 : sub32 reltime (mul32 year 31557600) = r1).
    { unfold sub32, mul32, year, r1 in *. unfold int32, INT_MIN, INT_MAX in Hr.
      rewrite (wrap32_id (_ * _)), wrap32_id;
        unfold int32, INT_MIN, INT_MAX; Z.quot_rem_to_equations; lia. }
    rewrite H1. fold mon.
    assert (H2 : sub32 r1 (mul32 mon 2592000) = r2).
    { unfold sub32, mul32, mon, r2, r1 in *. unfold int32, INT_MIN, INT_MAX in Hr.
      rewrite (wrap32_id (_ * _)), wrap32_id;
        unfold int32, INT_MIN, INT_MAX; Z.quot_rem_to_equations; lia. }
    rewrite H2.
    assert (H3 : sub32 r2 (mul32 (Z.quot r2 86400) 86400) = Z.rem r2 86400).
    { unfold sub32, mul32, mon, r2, r1 in *. unfold int32, INT_MIN, INT_MAX in Hr.
      rewrite (wrap32_id (_ * _)), wrap32_id;
        unfold int32, INT_MIN, INT_MAX; Z.quot_rem_to_equations; lia. }
    rewrite H3.
    f_equal. f_equal.
    + unfold mul64. apply wrap64_id.
      unfold int64, r2, r1. unfold int32, INT_MIN, INT_MAX in Hr.
      Z.quot_rem_to_equations. lia.
    + unfold add32, mul32, year, mon, r1. unfold int32, INT_MIN, INT_MAX in Hr.
      rewrite (wrap32_id (_ * _)), wrap32_id;
        unfold int32, INT_MIN, INT_MAX; Z.quot_rem_to_equations; lia.
Qed.

(** C7, where the code departs from it.  An interval of 584542 years is far
    beyond the 32-bit range in seconds, yet interval_reltime returns
    -1454509 for it: the microseconds overflow the 64-bit product before the
    range test sees them.  reltime_interval, for its part, raises its error
    on INVALID_RELTIME only. *)
Theorem interval_reltime_overflow :
  let interval := {| time := 0; day := 0; month := 7014504 |} in
  flattened_secs interval = 18446742619200 /\
  INT_MAX < flattened_secs interval /\
  interval_reltime interval = -1454509 /\
  (forall reltime, int32 reltime ->
     (reltime_interval reltime = Err ERRCODE_FEATURE_NOT_SUPPORTED <->
      reltime = INVALID_RELTIME)).
Proof.
  cbv zeta.
  split; [vm_compute; reflexivity |].
  split; [vm_compute; reflexivity |].
  split; [vm_compute; reflexivity |].
  intros reltime H. split.
  - intros Herr. destruct (Z.eq_dec reltime INVALID_RELTIME) as [| Hne]; [assumption |].
    destruct (reltime_interval_decomposes reltime H) as [_ Hok].
    rewrite (Hok Hne) in Herr. discriminate.
  - apply reltime_interval_decomposes. assumption.
Qed.

End Conversion.

(** ** The text form of an AbsoluteTime *)

Section TextForm.

Context {h : nabstime_h} {dt : datetime_h} {sess : knl_session}.


(** Outside the transfer of an insert between nodes abstimeout always gives
    a text: the one EncodeDateTime writes. *)
Lemma abstimeout_plain (x : Z) :
  is_abstimeout_in = false ->
  x <> INVALID_ABSTIME -> x <> NOSTART_ABSTIME -> x <> NOEND_ABSTIME ->
  abstimeout x =
    let '(tz, tm, tzn) := abstime2tm x true true 0 None in
    Some (EncodeDateTime tm tz tzn).
Proof.
  intros Hflag Hi Hs He. unfold abstimeout.
  destruct (Z.eqb_spec x INVALID_ABSTIME); [contradiction |].
  destruct (Z.eqb_spec x NOEND_ABSTIME); [contradiction |].
  destruct (Z.eqb_spec x NOSTART_ABSTIME); [contradiction |].
  destruct (abstime2tm x true true 0 None) as [[tz tm] tzn].
  rewrite Hflag, andb_false_r. reflexivity.
Qed.


End TextForm.

(** ** The orders of the three types *)

Section Orders.

Context {h : nabstime_h}.

Lemma abstime_cmp_internal_trans (a b c : Z) :
  abstime_cmp_internal a b <= 0 -> abstime_cmp_internal b c <= 0 ->
  abstime_cmp_internal a c <= 0.
Proof.
  unfold abstime_cmp_internal.
  destruct (Z.eqb_spec a INVALID_ABSTIME), (Z.eqb_spec b INVALID_ABSTIME),
    (Z.eqb_spec c INVALID_ABSTIME); try lia;
    destruct (Z.gtb_spec a b), (Z.gtb_spec b c), (Z.gtb_spec a c),
      (Z.eqb_spec a b), (Z.eqb_spec b c), (Z.eqb_spec a c); lia.
Qed.

(** X1.  The abstime comparison is a total order on the 32-bit values with
    INVALID the greatest: it is antisymmetric and transitive, it is 0 on
    equal values only, and the six operators are the six readings of it. *)
Theorem abstime_total_order (a b c : Z) :
  abstime_cmp_internal b a = - abstime_cmp_internal a b /\
  (abstime_cmp_internal a b = 0 <-> a = b) /\
  (abstime_cmp_internal a b <= 0 -> abstime_cmp_internal b c <= 0 ->
   abstime_cmp_internal a c <= 0) /\
  abstime_cmp_internal a INVALID_ABSTIME <= 0 /\
  (abstimeeq a b = true <-> a = b) /\
  abstimene a b = negb (abstimeeq a b) /\
  abstimegt a b = abstimelt b a /\
  abstimele a b = negb (abstimelt b a) /\
  abstimege a b = negb (abstimelt a b) /\
  (abstimelt a b = true \/ a = b \/ abstimelt b a = true).
Proof.
  pose proof (abstime_cmp_internal_antisym a b) as Hanti.
  pose proof (abstimeeq_eq a b) as Heq.
  split; [exact Hanti |].
  split; [unfold abstimeeq in Heq; rewrite Z.eqb_eq in Heq; exact Heq |].
  split; [apply abstime_cmp_internal_trans |].
  split.
  { unfold abstime_cmp_internal. rewrite Z.eqb_refl.
    destruct (a =? INVALID_ABSTIME); lia. }
  split; [exact Heq |].
  split; [reflexivity |].
  unfold abstimegt, abstimelt, abstimele, abstimege. rewrite Hanti.
  destruct (abstime_cmp_internal_cases a b) as [Hc | [Hc | Hc]]; rewrite Hc;
    repeat split; try reflexivity.
  - right; left. apply Heq. unfold abstimeeq. rewrite Hc. reflexivity.
  - right; right. reflexivity.
  - left. reflexivity.
Qed.

Lemma reltime_cmp_internal_cases (a b : Z) :
  reltime_cmp_internal a b = 0 \/ reltime_cmp_internal a b = 1 \/
  reltime_cmp_internal a b = -1.
Proof.
  unfold reltime_cmp_internal.
  destruct (a =? INVALID_RELTIME), (b =? INVALID_RELTIME), (a >? b), (a =? b); auto.
Qed.

Lemma reltime_cmp_internal_antisym (a b : Z) :
  reltime_cmp_internal b a = - reltime_cmp_internal a b.
Proof.
  unfold reltime_cmp_internal.
  destruct (Z.eqb_spec a INVALID_RELTIME), (Z.eqb_spec b INVALID_RELTIME);
    try reflexivity.
  destruct (Z.gtb_spec a b), (Z.gtb_spec b a), (Z.eqb_spec a b), (Z.eqb_spec b a);
    lia.
Qed.

Lemma reltime_cmp_internal_eq (a b : Z) : reltime_cmp_internal a b = 0 <-> a = b.
Proof.
  unfold reltime_cmp_internal.
  destruct (Z.eqb_spec a INVALID_RELTIME), (Z.eqb_spec b INVALID_RELTIME);
    try (split; [discriminate | congruence]); [split; congruence |].
  destruct (Z.gtb_spec a b); [split; [discriminate | lia] |].
  destruct (Z.eqb_spec a b); split; auto; try discriminate; contradiction.
Qed.

(** X2.  The reltime comparison is a total order too, with INVALID_RELTIME
    the greatest, and its six operators are the six readings of it. *)
Theorem reltime_total_order (a b c : Z) :
  reltime_cmp_internal b a = - reltime_cmp_internal a b /\
  (reltime_cmp_internal a b = 0 <-> a = b) /\
  (reltime_cmp_internal a b <= 0 -> reltime_cmp_internal b c <= 0 ->
   reltime_cmp_internal a c <= 0) /\
  reltime_cmp_internal a INVALID_RELTIME <= 0 /\
  (reltimeeq a b = true <-> a = b) /\
  reltimene a b = negb (reltimeeq a b) /\
  reltimegt a b = reltimelt b a /\
  reltimele a b = negb (reltimelt b a) /\
  reltimege a b = negb (reltimelt a b) /\
  (reltimelt a b = true \/ a = b \/ reltimelt b a = true).
Proof.
  pose proof (reltime_cmp_internal_antisym a b) as Hanti.
  pose proof (reltime_cmp_internal_eq a b) as Heq.
  split; [exact Hanti |].
  split; [exact Heq |].
  split.
  { unfold reltime_cmp_internal.
    destruct (Z.eqb_spec a INVALID_RELTIME), (Z.eqb_spec b INVALID_RELTIME),
      (Z.eqb_spec c INVALID_RELTIME); try lia;
      destruct (Z.gtb_spec a b), (Z.gtb_spec b c), (Z.gtb_spec a c),
        (Z.eqb_spec a b), (Z.eqb_spec b c), (Z.eqb_spec a c); lia. }
  split.
  { unfold reltime_cmp_internal. rewrite Z.eqb_refl.
    destruct (a =? INVALID_RELTIME); lia. }
  split; [unfold reltimeeq; rewrite Z.eqb_eq; exact Heq |].
  split; [reflexivity |].
  unfold reltimegt, reltimelt, reltimele, reltimege. rewrite Hanti.
  destruct (reltime_cmp_internal_cases a b) as [Hc | [Hc | Hc]]; rewrite Hc;
    repeat split; try reflexivity.
  - right; left. apply Heq. exact Hc.
  - right; right. reflexivity.
  - left. reflexivity.
Qed.

Lemma tinterval_cmp_internal_cases (a b : TimeIntervalData) :
  tinterval_cmp_internal a b = 0 \/ tinterval_cmp_internal a b = 1 \/
  tinterval_cmp_internal a b = -1.
Proof.
  unfold tinterval_cmp_internal.
  destruct (tinterval_invalid a), (tinterval_invalid b); auto.
  destruct (sub32 (data1 a) (data0 a) >? sub32 (data1 b) (data0 b)),
    (sub32 (data1 a) (data0 a) =? sub32 (data1 b) (data0 b)); auto.
Qed.

(** X3.  The tinterval comparison is a total preorder: reflexive,
    antisymmetric in its sign and transitive, with the six operators its six
    readings.  Intervals that tintervalsame holds of are equal in it, but it
    is 0 on intervals that differ. *)
Theorem tinterval_total_preorder (a b c : TimeIntervalData) :
  tinterval_cmp_internal a a = 0 /\
  tinterval_cmp_internal b a = - tinterval_cmp_internal a b /\
  (tinterval_cmp_internal a b <= 0 -> tinterval_cmp_internal b c <= 0 ->
   tinterval_cmp_internal a c <= 0) /\
  tintervalne a b = negb (tintervaleq a b) /\
  tintervalgt a b = tintervallt b a /\
  tintervalle a b = negb (tintervallt b a) /\
  tintervalge a b = negb (tintervallt a b) /\
  (tintervalsame a b = true -> tintervaleq a b = true) /\
  (exists i j, tintervaleq i j = true /\ tintervalsame i j = false /\ i <> j).
Proof.
  assert (Hanti : tinterval_cmp_internal b a = - tinterval_cmp_internal a b).
  { unfold tinterval_cmp_internal.
    destruct (tinterval_invalid a), (tinterval_invalid b); try reflexivity.
    destruct (Z.gtb_spec (sub32 (data1 a) (data0 a)) (sub32 (data1 b) (data0 b))),
      (Z.gtb_spec (sub32 (data1 b) (data0 b)) (sub32 (data1 a) (data0 a))),
      (Z.eqb_spec (sub32 (data1 a) (data0 a)) (sub32 (data1 b) (data0 b))),
      (Z.eqb_spec (sub32 (data1 b) (data0 b)) (sub32 (data1 a) (data0 a))); lia. }
  split.
  { unfold tinterval_cmp_internal. destruct (tinterval_invalid a); [reflexivity |].
    rewrite Z.eqb_refl. destruct (Z.gtb_spec (sub32 (data1 a) (data0 a))
                                    (sub32 (data1 a) (data0 a))); [lia | reflexivity]. }
  split; [exact Hanti |].
  split.
  { unfold tinterval_cmp_internal.
    destruct (tinterval_invalid a), (tinterval_invalid b), (tinterval_invalid c);
      try lia.
    destruct (Z.gtb_spec (sub32 (data1 a) (data0 a)) (sub32 (data1 b) (data0 b))),
      (Z.gtb_spec (sub32 (data1 b) (data0 b)) (sub32 (data1 c) (data0 c))),
      (Z.gtb_spec (sub32 (data1 a) (data0 a)) (sub32 (data1 c) (data0 c))),
      (Z.eqb_spec (sub32 (data1 a) (data0 a)) (sub32 (data1 b) (data0 b))),
      (Z.eqb_spec (sub32 (data1 b) (data0 b)) (sub32 (data1 c) (data0 c))),
      (Z.eqb_spec (sub32 (data1 a) (data0 a)) (sub32 (data1 c) (data0 c))); lia. }
  split; [reflexivity |].
  split.
  { unfold tintervalgt, tintervallt. rewrite Hanti.
    destruct (tinterval_cmp_internal_cases a b) as [Hc | [Hc | Hc]]; rewrite Hc;
      reflexivity. }
  split.
  { unfold tintervalle, tintervallt. rewrite Hanti.
    destruct (tinterval_cmp_internal_cases a b) as [Hc | [Hc | Hc]]; rewrite Hc;
      reflexivity. }
  split.
  { unfold tintervalge, tintervallt.
    destruct (tinterval_cmp_internal_cases a b) as [Hc | [Hc | Hc]]; rewrite Hc;
      reflexivity. }
  split.
  { unfold tintervalsame, tintervaleq, tinterval_cmp_internal, tinterval_invalid.
    destruct (Z.eqb_spec (status a) T_INTERVAL_INVAL); [discriminate |].
    destruct (Z.eqb_spec (status b) T_INTERVAL_INVAL); [discriminate |]. simpl.
    destruct (abstimeeq (data0 a) (data0 b)) eqn:E0; [| discriminate].
    destruct (abstimeeq (data1 a) (data1 b)) eqn:E1; [| discriminate].
    apply abstimeeq_eq in E0, E1. rewrite E0, E1. intros _.
    destruct ((data0 b =? INVALID_ABSTIME) || (data1 b =? INVALID_ABSTIME));
      [reflexivity |].
    rewrite Z.eqb_refl.
    destruct (Z.gtb_spec (sub32 (data1 b) (data0 b)) (sub32 (data1 b) (data0 b)));
      [lia | reflexivity]. }
  exists {| status := T_INTERVAL_INVAL; data0 := 0; data1 := 0 |},
         {| status := T_INTERVAL_INVAL; data0 := 0; data1 := 1 |}.
  repeat split; try discriminate.
Qed.

End Orders.

(** ** Adding and subtracting a relative time *)

Section Arithmetic.

Context {h : nabstime_h}.

(** X4.  timepl and timemi never return an infinity: the result is
    INVALID_ABSTIME or lies strictly between NOSTART and NOEND.  An operand
    that is INVALID or infinite gives INVALID_ABSTIME, so the infinities are
    not kept by the arithmetic. *)
Theorem timepl_timemi_never_infinite (t1 t2 : Z) :
  nabstime_h_ok h -> int32 t1 -> int32 t2 -> AbsoluteTime_value t1 ->
  (timepl t1 t2 = INVALID_ABSTIME \/ NOSTART_ABSTIME < timepl t1 t2 < NOEND_ABSTIME) /\
  (timemi t1 t2 = INVALID_ABSTIME \/ NOSTART_ABSTIME < timemi t1 t2 < NOEND_ABSTIME) /\
  timepl INVALID_ABSTIME t2 = INVALID_ABSTIME /\
  timepl NOSTART_ABSTIME t2 = INVALID_ABSTIME /\
  timepl NOEND_ABSTIME t2 = INVALID_ABSTIME /\
  timemi INVALID_ABSTIME t2 = INVALID_ABSTIME /\
  timemi NOSTART_ABSTIME t2 = INVALID_ABSTIME /\
  timemi NOEND_ABSTIME t2 = INVALID_ABSTIME /\
  timepl t1 INVALID_RELTIME = INVALID_ABSTIME.
Proof.
  intros Hok H1 H2 Hv.
  split.
  { rewrite timepl_unfold by assumption.
    destruct (AbsoluteTimeIsReal t1 && RelativeTimeIsValid t2); [| left; reflexivity].
    simpl.
    destruct (Z.ltb_spec NOSTART_ABSTIME (t1 + t2)), (Z.ltb_spec (t1 + t2) NOEND_ABSTIME);
      simpl; auto. }
  split.
  { rewrite timemi_unfold by assumption.
    destruct (AbsoluteTimeIsReal t1 && RelativeTimeIsValid t2); [| left; reflexivity].
    simpl.
    destruct (Z.ltb_spec NOSTART_ABSTIME (t1 - t2)), (Z.ltb_spec (t1 - t2) NOEND_ABSTIME);
      simpl; auto. }
  unfold timepl, timemi, RelativeTimeIsValid.
  rewrite (INVALID_not_real h Hok), (NOSTART_not_real h Hok), (NOEND_not_real h Hok).
  rewrite Z.eqb_refl, andb_false_r.
  repeat split; reflexivity.
Qed.

(** X5.  Where timepl gives a time, timemi takes the relative time off
    again, and where timemi gives a time, timepl puts it back. *)
Theorem timepl_timemi_inverse (t1 t2 : Z) :
  nabstime_h_ok h -> int32 t1 -> int32 t2 -> AbsoluteTime_value t1 ->
  (timepl t1 t2 <> INVALID_ABSTIME -> timemi (timepl t1 t2) t2 = t1) /\
  (timemi t1 t2 <> INVALID_ABSTIME -> timepl (timemi t1 t2) t2 = t1).
Proof.
  intros Hok H1 H2 Hv.
  pose proof (NOEND_ABSTIME_int32 h Hok) as He.
  pose proof (NOSTART_ABSTIME_int32 h Hok) as Hs.
  split.
  - rewrite (timepl_unfold t1 t2) by assumption.
    destruct (AbsoluteTimeIsReal t1) eqn:Hr; [| simpl; congruence].
    destruct (RelativeTimeIsValid t2) eqn:Hrel; [| simpl; congruence]. simpl.
    destruct (Z.ltb_spec NOSTART_ABSTIME (t1 + t2)) as [Hlo |]; [| simpl; congruence].
    destruct (Z.ltb_spec (t1 + t2) NOEND_ABSTIME) as [Hhi |]; [| simpl; congruence].
    simpl. intros Hne.
    pose proof (real_between t1 Hok Hv Hr) as Hb.
    rewrite timemi_unfold; try assumption.
    + rewrite (between_real h Hok (t1 + t2)) by (auto; lia).
      rewrite Hrel. simpl.
      replace (t1 + t2 - t2) with t1 by lia.
      destruct (Z.ltb_spec NOSTART_ABSTIME t1), (Z.ltb_spec t1 NOEND_ABSTIME);
        try lia. reflexivity.
    + unfold int32, INT_MIN, INT_MAX in *. lia.
    + right; right; right. lia.
  - rewrite (timemi_unfold t1 t2) by assumption.
    destruct (AbsoluteTimeIsReal t1) eqn:Hr; [| simpl; congruence].
    destruct (RelativeTimeIsValid t2) eqn:Hrel; [| simpl; congruence]. simpl.
    destruct (Z.ltb_spec NOSTART_ABSTIME (t1 - t2)) as [Hlo |]; [| simpl; congruence].
    destruct (Z.ltb_spec (t1 - t2) NOEND_ABSTIME) as [Hhi |]; [| simpl; congruence].
    simpl. intros Hne.
    pose proof (real_between t1 Hok Hv Hr) as Hb.
    rewrite timepl_unfold; try assumption.
    + rewrite (between_real h Hok (t1 - t2)) by (auto; lia).
      rewrite Hrel. simpl.
      replace (t1 - t2 + t2) with t1 by lia.
      destruct (Z.ltb_spec NOSTART_ABSTIME t1), (Z.ltb_spec t1 NOEND_ABSTIME);
        try lia. reflexivity.
    + unfold int32, INT_MIN, INT_MAX in *. lia.
    + right; right; right. lia.
Qed.

End Arithmetic.

(** ** From a date to an AbsoluteTime *)

Section FromDate.

Context {h : nabstime_h} {dt : datetime_h}.

Lemma tm2abstime_validation (tm : pg_tm) :
  (tm_year tm <? 1901) || (tm_year tm >? 2038) || (tm_mon tm <? 1) ||
  (tm_mon tm >? MONTHS_PER_YEAR) || (tm_mday tm <? 1) || (tm_mday tm >? 31) ||
  (tm_hour tm <? 0) || (tm_hour tm >? HOURS_PER_DAY) ||
  ((tm_hour tm =? HOURS_PER_DAY) && ((tm_min tm >? 0) || (tm_sec tm >? 0))) ||
  (tm_min tm <? 0) || (tm_min tm >? MINS_PER_HOUR - 1) || (tm_sec tm <? 0) ||
  (tm_sec tm >? SECS_PER_MINUTE) = negb (valid_fields tm).
Proof.
  unfold valid_fields, MONTHS_PER_YEAR, HOURS_PER_DAY, MINS_PER_HOUR, SECS_PER_MINUTE.
  lia.
Qed.

Lemma tm2abstime_seconds (tm : pg_tm) (tz : Z) :
  add32 (add32 (tm_sec tm) tz)
        (mul32 (add32 (tm_min tm)
                      (mul32 (add32 (mul32 (daynum tm) HOURS_PER_DAY) (tm_hour tm))
                             MINS_PER_HOUR))
               SECS_PER_MINUTE) = wrap32 (epoch_seconds tm tz).
Proof.
  unfold add32, mul32, epoch_seconds, HOURS_PER_DAY, MINS_PER_HOUR, SECS_PER_MINUTE.
  generalize (daynum tm) (tm_hour tm) (tm_min tm) (tm_sec tm). intros d hh mi ss.
  match goal with |- ?lhs = ?rhs => remember lhs as l eqn:El; remember rhs as r eqn:Er end.
  assert (Hl : int32 l) by (subst l; apply wrap32_int32).
  assert (Hr : int32 r) by (subst r; apply wrap32_int32).
  repeat match type of El with
         | context [wrap32 ?z] =>
             let k := fresh "k" in
             let E := fresh "E" in
             destruct (wrap32_ex z) as [k E]; rewrite E in El; clear E
         end.
  destruct (wrap32_ex (d * 86400 + hh * 3600 + mi * 60 + ss + tz)) as [k' E'].
  rewrite E' in Er.
  unfold int32, INT_MIN, INT_MAX in *. lia.
Qed.

(** X6.  With a zone offset of at most a day, tm2abstime gives the exact
    number of seconds since the epoch of a date whose fields and day it lets
    through, when that number fits 32 bits and is a real time, and
    INVALID_ABSTIME in every other case: never a number that has wrapped
    around, and never one of the infinities. *)
Theorem tm2abstime_exact_or_invalid (tm : pg_tm) (tz : Z) :
  -86400 <= tz <= 86400 ->
  tm2abstime tm tz =
    (if valid_fields tm &&
        (MIN_DAYNUM <=? daynum tm) && (daynum tm <=? MAX_DAYNUM) &&
        (INT_MIN <=? epoch_seconds tm tz) && (epoch_seconds tm tz <=? INT_MAX) &&
        AbsoluteTimeIsReal (epoch_seconds tm tz)
     then epoch_seconds tm tz else INVALID_ABSTIME) /\
  (tm2abstime tm tz = INVALID_ABSTIME \/ AbsoluteTimeIsReal (tm2abstime tm tz) = true).
Proof.
  intros Htz.
  assert (Hpost : tm2abstime tm tz = INVALID_ABSTIME \/
                  AbsoluteTimeIsReal (tm2abstime tm tz) = true).
  { unfold tm2abstime.
    repeat match goal with
           | |- context [if ?c then INVALID_ABSTIME else _] =>
               destruct c eqn:?; [left; reflexivity |]
           end.
    right. match goal with H : negb _ = false |- _ => apply negb_false_iff in H; exact H end. }
  split; [| exact Hpost].
  unfold tm2abstime. rewrite tm2abstime_validation.
  destruct (valid_fields tm) eqn:Hvf; [| reflexivity]. cbn [negb andb].
  fold (daynum tm). cbv zeta. rewrite tm2abstime_seconds.
  unfold MIN_DAYNUM, MAX_DAYNUM, INT_MIN, INT_MAX.
  destruct (Z.leb_spec (-24856) (daynum tm)) as [Hlo | Hlo];
    [| replace (daynum tm <? -24856) with true by (symmetry; apply Z.ltb_lt; lia);
       reflexivity].
  destruct (Z.leb_spec (daynum tm) 24854) as [Hhi | Hhi];
    [| replace (daynum tm >? 24854) with true by (rewrite Z.gtb_ltb; symmetry; apply Z.ltb_lt; lia);
       rewrite orb_true_r; reflexivity].
  replace ((daynum tm <? -24856) || (daynum tm >? 24854)) with false
    by (rewrite Z.gtb_ltb; symmetry; apply orb_false_intro; apply Z.ltb_ge; lia).
  cbn [andb].
  assert (Hhms : 0 <= tm_hour tm * 3600 + tm_min tm * 60 + tm_sec tm <= 86400)
    by (unfold valid_fields in Hvf; lia).
  set (v := epoch_seconds tm tz) in *.
  assert (Hv : v = daynum tm * 86400 + (tm_hour tm * 3600 + tm_min tm * 60 + tm_sec tm) + tz)
    by (unfold v, epoch_seconds; lia).
  destruct (wrap32_ex v) as [k Hk].
  pose proof (wrap32_int32 v) as Hw. unfold int32, INT_MIN, INT_MAX in Hw.
  destruct (Z.leb_spec (-2147483648) v) as [Hge | Hlt].
  - destruct (Z.leb_spec v 2147483647) as [Hle | Hgt]; cbn [andb].
    + rewrite (wrap32_id v) by (unfold int32, INT_MIN, INT_MAX; lia).
      replace (((daynum tm >=? 24854 - 10) && (v <? 0)) ||
               ((daynum tm <=? -24856 + 10) && (v >? 0))) with false by lia.
      destruct (AbsoluteTimeIsReal v); reflexivity.
    + replace (((daynum tm >=? 24854 - 10) && (wrap32 v <? 0)) ||
               ((daynum tm <=? -24856 + 10) && (wrap32 v >? 0))) with true by lia.
      reflexivity.
  - cbn [andb].
    replace (((daynum tm >=? 24854 - 10) && (wrap32 v <? 0)) ||
             ((daynum tm <=? -24856 + 10) && (wrap32 v >? 0))) with true by lia.
    reflexivity.
Qed.

End FromDate.

(** ** The grammar of the interval literal *)

Section Grammar.

Local Open Scope string_scope.

Context {h : nabstime_h} {dt : datetime_h} {sess : knl_session}.

Lemma string_app_assoc (a b c : string) : (a ++ b) ++ c = a ++ (b ++ c).
Proof. induction a as [| x a IH]; simpl; [reflexivity | rewrite IH; reflexivity]. Qed.

Lemma skip_blanks_upto_inv (stop : ascii) (p q : string) :
  skip_blanks_upto stop p = Some q -> exists n, p = blanks n ++ String stop q.
Proof.
  induction p as [| c p IH]; simpl; [discriminate |].
  unfold IsSpace. destruct (Ascii.eqb_spec c " "%char) as [-> | Hc].
  - intros Hs. destruct (IH Hs) as [n ->]. exists (S n). reflexivity.
  - destruct (Ascii.eqb_spec c stop) as [-> | Hne]; simpl; [| discriminate].
    intros Hs. injection Hs as <-. exists 0%nat. reflexivity.
Qed.

Lemma scan_date_inv (p date rest : string) :
  scan_date p = Some (date, rest) ->
  p = date ++ String dquote rest /\ no_dquote date = true.
Proof.
  revert date. induction p as [| c p IH]; simpl; [discriminate |].
  intros date. destruct (Ascii.eqb_spec c dquote) as [-> | Hc].
  - intros Hs. injection Hs as <- <-. split; reflexivity.
  - destruct (scan_date p) as [[d r] |]; [| discriminate].
    intros Hs. injection Hs as <- <-.
    destruct (IH d eq_refl) as [-> Hd]. split; [reflexivity |].
    simpl. rewrite Hd. destruct (Ascii.eqb_spec c dquote); [contradiction | reflexivity].
Qed.

Lemma scan_date_found (date rest : string) :
  no_dquote date = true -> scan_date (date ++ String dquote rest) = Some (date, rest).
Proof.
  induction date as [| c d IH]; simpl.
  - intros _. reflexivity.
  - intros Hn. apply andb_true_iff in Hn. destruct Hn as [Hc Hd].
    apply negb_true_iff in Hc. rewrite Hc, (IH Hd). reflexivity.
Qed.

Lemma prefix_before_dquote (lit date rest : string) :
  no_dquote lit = true ->
  String.prefix lit (date ++ String dquote rest) = String.prefix lit date.
Proof.
  revert lit. induction date as [| c d IH]; intros lit Hlit.
  - destruct lit as [| a lit]; [reflexivity |]. simpl in *.
    apply andb_true_iff in Hlit. destruct Hlit as [Ha _].
    destruct (ascii_dec a dquote) as [-> | _]; [| reflexivity].
    rewrite Ascii.eqb_refl in Ha. discriminate.
  - destruct lit as [| a lit]; [reflexivity |]. simpl in *.
    apply andb_true_iff in Hlit. destruct Hlit as [_ Hl].
    destruct (ascii_dec a c); [apply IH; exact Hl | reflexivity].
Qed.

(** What parsetinterval does with a literal of the right shape: the
    Undefined Range test, then the two dates in turn. *)
Lemma parsetinterval_literal (n1 n2 n3 n4 : nat) (date1 date2 : string) :
  no_dquote date1 = true -> no_dquote date2 = true ->
  let s := tinterval_literal n1 n2 n3 n4 date1 date2 in
  parsetinterval s =
    if String.prefix INVALID_INTERVAL_STR date1
    then Err (ERRCODE_INVALID_DATETIME_FORMAT s)
    else i_start <- abstimein date1 ;; i_end <- abstimein date2 ;; Ok (i_start, i_end).
Proof.
  intros H1 H2 s. unfold parsetinterval. fold s.
  set (bogus := @Err (Z * Z) (ERRCODE_INVALID_DATETIME_FORMAT s)).
  unfold s, tinterval_literal, quoted.
  rewrite skip_blanks_upto_found by reflexivity.
  cbn [append]. rewrite !string_app_assoc. cbn [append].
  rewrite skip_blanks_upto_found by reflexivity.
  rewrite prefix_before_dquote by reflexivity.
  destruct (String.prefix INVALID_INTERVAL_STR date1); [reflexivity |].
  rewrite scan_date_found by assumption.
  destruct (abstimein date1) as [a | e]; [| reflexivity]. cbn [bind].
  rewrite skip_blanks_upto_found by reflexivity.
  rewrite scan_date_found by assumption.
  destruct (abstimein date2) as [b | e]; [| reflexivity]. cbn [bind].
  rewrite skip_blanks_upto_found by reflexivity. reflexivity.
Qed.

(** A text that starts as a literal up to the end of its first date, and
    one that does up to the end of its second. *)
Lemma parsetinterval_first_date (n1 n2 : nat) (date1 rest : string) (e : ereport) :
  no_dquote date1 = true ->
  String.prefix INVALID_INTERVAL_STR date1 = false ->
  abstimein date1 = Err e ->
  parsetinterval (blanks n1 ++ String "["%char (blanks n2 ++ quoted date1 ++ rest)) = Err e.
Proof.
  intros H1 Hp Ha. unfold parsetinterval.
  match goal with
  | |- context [ERRCODE_INVALID_DATETIME_FORMAT ?s] =>
      set (bogus := @Err (Z * Z) (ERRCODE_INVALID_DATETIME_FORMAT s))
  end.
  unfold quoted.
  rewrite skip_blanks_upto_found by reflexivity.
  cbn [append]. rewrite !string_app_assoc. cbn [append].
  rewrite skip_blanks_upto_found by reflexivity.
  rewrite prefix_before_dquote by reflexivity. rewrite Hp.
  rewrite scan_date_found by assumption. rewrite Ha. reflexivity.
Qed.

Lemma parsetinterval_second_date (n1 n2 n3 : nat) (date1 date2 rest : string)
    (a : Z) (e : ereport) :
  no_dquote date1 = true -> no_dquote date2 = true ->
  String.prefix INVALID_INTERVAL_STR date1 = false ->
  abstimein date1 = Ok a -> abstimein date2 = Err e ->
  parsetinterval
    (blanks n1 ++ String "["%char
       (blanks n2 ++ quoted date1 ++ blanks n3 ++ quoted date2 ++ rest)) = Err e.
Proof.
  intros H1 H2 Hp Ha Hb. unfold parsetinterval.
  match goal with
  | |- context [ERRCODE_INVALID_DATETIME_FORMAT ?s] =>
      set (bogus := @Err (Z * Z) (ERRCODE_INVALID_DATETIME_FORMAT s))
  end.
  unfold quoted.
  rewrite skip_blanks_upto_found by reflexivity.
  cbn [append]. rewrite !string_app_assoc. cbn [append].
  rewrite skip_blanks_upto_found by reflexivity.
  rewrite prefix_before_dquote by reflexivity. rewrite Hp.
  rewrite scan_date_found by assumption. rewrite Ha. cbn [bind].
  rewrite skip_blanks_upto_found by reflexivity.
  rewrite scan_date_found by assumption. rewrite Hb. reflexivity.
Qed.

(** X7.  parsetinterval accepts exactly the texts made of blanks, an
    opening bracket, blanks, a quoted date, blanks, a second quoted date,
    blanks and a closing bracket at the very end, where the first date does
    not begin with Undefined Range and abstimein accepts both dates; it then
    returns what abstimein makes of the two dates.  Anything else raises
    the syntax error that names the whole text, or the error abstimein
    raises on the first quoted date of the text, or, that date being
    accepted, on the second; and a text that starts as a literal up to such
    a date raises the error of abstimein on it, whatever follows. *)
Theorem parsetinterval_grammar (s : string) (a b : Z) (e : ereport) :
  (parsetinterval s = Ok (a, b) <->
   exists n1 n2 n3 n4 date1 date2,
     s = tinterval_literal n1 n2 n3 n4 date1 date2 /\
     no_dquote date1 = true /\ no_dquote date2 = true /\
     String.prefix INVALID_INTERVAL_STR date1 = false /\
     abstimein date1 = Ok a /\ abstimein date2 = Ok b) /\
  (parsetinterval s = Err e ->
   e = ERRCODE_INVALID_DATETIME_FORMAT s \/
   (exists n1 n2 date1 rest,
      s = blanks n1 ++ String "["%char (blanks n2 ++ quoted date1 ++ rest) /\
      no_dquote date1 = true /\
      String.prefix INVALID_INTERVAL_STR date1 = false /\
      abstimein date1 = Err e) \/
   (exists n1 n2 n3 date1 date2 rest a',
      s = blanks n1 ++ String "["%char
            (blanks n2 ++ quoted date1 ++ blanks n3 ++ quoted date2 ++ rest) /\
      no_dquote date1 = true /\ no_dquote date2 = true /\
      String.prefix INVALID_INTERVAL_STR date1 = false /\
      abstimein date1 = Ok a' /\ abstimein date2 = Err e)) /\
  ((exists n1 n2 date1 rest,
      s = blanks n1 ++ String "["%char (blanks n2 ++ quoted date1 ++ rest) /\
      no_dquote date1 = true /\
      String.prefix INVALID_INTERVAL_STR date1 = false /\
      abstimein date1 = Err e) \/
   (exists n1 n2 n3 date1 date2 rest a',
      s = blanks n1 ++ String "["%char
            (blanks n2 ++ quoted date1 ++ blanks n3 ++ quoted date2 ++ rest) /\
      no_dquote date1 = true /\ no_dquote date2 = true /\
      String.prefix INVALID_INTERVAL_STR date1 = false /\
      abstimein date1 = Ok a' /\ abstimein date2 = Err e) ->
   parsetinterval s = Err e).
Proof.
  split; [split | split].
  - intros Hp. unfold parsetinterval in Hp.
    destruct (skip_blanks_upto "["%char s) as [p1 |] eqn:E1; [| discriminate].
    destruct (skip_blanks_upto dquote p1) as [p2 |] eqn:E2; [| discriminate].
    destruct (String.prefix INVALID_INTERVAL_STR p2) eqn:Ep; [discriminate |].
    destruct (scan_date p2) as [[date1 p3] |] eqn:E3; [| discriminate].
    destruct (abstimein date1) as [a' | e1] eqn:Ea; [| discriminate]. cbn [bind] in Hp.
    destruct (skip_blanks_upto dquote p3) as [p4 |] eqn:E4; [| discriminate].
    destruct (scan_date p4) as [[date2 p5] |] eqn:E5; [| discriminate].
    destruct (abstimein date2) as [b' | e2] eqn:Eb; [| discriminate]. cbn [bind] in Hp.
    destruct (skip_blanks_upto "]"%char p5) as [p6 |] eqn:E6; [| discriminate].
    destruct p6; [| discriminate]. injection Hp as <- <-.
    apply skip_blanks_upto_inv in E1, E2, E4, E6.
    destruct E1 as [n1 ->], E2 as [n2 ->], E4 as [n3 ->], E6 as [n4 ->].
    apply scan_date_inv in E3, E5.
    destruct E3 as [-> Hd1], E5 as [-> Hd2].
    rewrite prefix_before_dquote in Ep by reflexivity.
    exists n1, n2, n3, n4, date1, date2.
    repeat split; try assumption.
    unfold tinterval_literal, quoted.
    repeat (rewrite string_app_assoc || (progress cbn [append])). reflexivity.
  - intros (n1 & n2 & n3 & n4 & date1 & date2 & -> & H1 & H2 & Hp & Ha & Hb).
    rewrite parsetinterval_literal by assumption.
    rewrite Hp, Ha, Hb. reflexivity.
  - intros Hp. unfold parsetinterval in Hp.
    destruct (skip_blanks_upto "["%char s) as [p1 |] eqn:E1; [| left; congruence].
    destruct (skip_blanks_upto dquote p1) as [p2 |] eqn:E2; [| left; congruence].
    destruct (String.prefix INVALID_INTERVAL_STR p2) eqn:Ep; [left; congruence |].
    destruct (scan_date p2) as [[date1 p3] |] eqn:E3; [| left; congruence].
    apply skip_blanks_upto_inv in E1, E2.
    destruct E1 as [n1 E1], E2 as [n2 ->].
    apply scan_date_inv in E3. destruct E3 as [-> Hd1].
    rewrite prefix_before_dquote in Ep by reflexivity.
    destruct (abstimein date1) as [a' | e1] eqn:Ea; cbn [bind] in Hp.
    2: { right; left. exists n1, n2, date1, p3.
         split; [| split; [exact Hd1 | split; [exact Ep | congruence]]].
         rewrite E1. unfold quoted.
         repeat (rewrite string_app_assoc || (progress cbn [append])). reflexivity. }
    destruct (skip_blanks_upto dquote p3) as [p4 |] eqn:E4; [| left; congruence].
    destruct (scan_date p4) as [[date2 p5] |] eqn:E5; [| left; congruence].
    apply skip_blanks_upto_inv in E4. destruct E4 as [n3 ->].
    apply scan_date_inv in E5. destruct E5 as [-> Hd2].
    destruct (abstimein date2) as [b' | e2] eqn:Eb; cbn [bind] in Hp.
    2: { right; right. exists n1, n2, n3, date1, date2, p5, a'.
         split; [| split; [exact Hd1 | split; [exact Hd2 | split; [exact Ep |
                   split; [exact Ea | congruence]]]]].
         rewrite E1. unfold quoted.
         repeat (rewrite string_app_assoc || (progress cbn [append])). reflexivity. }
    destruct (skip_blanks_upto "]"%char p5) as [p6 |]; [| left; congruence].
    destruct p6; [discriminate | left; congruence].
  - intros [(n1 & n2 & date1 & rest & -> & H1 & Hp & Ha) |
            (n1 & n2 & n3 & date1 & date2 & rest & a' & -> & H1 & H2 & Hp & Ha & Hb)].
    + apply parsetinterval_first_date; assumption.
    + apply (parsetinterval_second_date n1 n2 n3 date1 date2 rest a' e); assumption.
Qed.

End Grammar.

(** ** The text of an interval *)

Section IntervalText.

Local Open Scope string_scope.

Context {h : nabstime_h} {dt : datetime_h} {sess : knl_session} {sc : securec_h}.

Lemma string_length_app (a b : string) :
  String.length (a ++ b) = (String.length a + String.length b)%nat.
Proof. induction a as [| c a IH]; simpl; [reflexivity | rewrite IH; reflexivity]. Qed.

Lemma ABSTIME_sorted (s e : Z) :
  s <> INVALID_ABSTIME -> e <> INVALID_ABSTIME -> (s <= e)%Z ->
  ABSTIMEMIN s e = s /\ ABSTIMEMAX s e = e.
Proof.
  intros Hs He Hle.
  unfold ABSTIMEMIN, ABSTIMEMAX, abstimele, abstimelt, abstime_cmp_internal.
  destruct (Z.eqb_spec s INVALID_ABSTIME); [contradiction |].
  destruct (Z.eqb_spec e INVALID_ABSTIME); [contradiction |].
  destruct (Z.gtb_spec s e); [lia |].
  destruct (Z.eqb_spec s e); simpl; split; congruence.
Qed.

(** The text tintervalout makes of an interval that is not INVAL, while
    there is room in the buffer. *)
Lemma tintervalout_valid (i : TimeIntervalData) (a b : string) :
  securec_h_ok sc -> status i <> T_INTERVAL_INVAL ->
  abstimeout (data0 i) = Some a -> abstimeout (data1 i) = Some b ->
  (String.length a + String.length b + 7 < T_INTERVAL_LEN)%nat ->
  tintervalout i = Some (tinterval_literal 0 0 1 0 a b).
Proof.
  intros Hsc Hst Ha Hb Hroom. unfold tintervalout, T_INTERVAL_LEN in *.
  rewrite (strcpy_s_room sc Hsc) by (simpl; lia). cbn [obind].
  destruct (Z.eqb_spec (status i) T_INTERVAL_INVAL); [contradiction |].
  rewrite Ha, Hb. cbn [obind].
  rewrite (strcat_s_room sc Hsc) by (simpl; lia). cbn [obind].
  rewrite (strcat_s_room sc Hsc) by (rewrite !string_length_app; simpl; lia).
  cbn [obind].
  rewrite (strcat_s_room sc Hsc) by (rewrite !string_length_app; simpl; lia).
  cbn [obind].
  rewrite (strcat_s_room sc Hsc) by (rewrite !string_length_app; simpl; lia).
  f_equal. unfold tinterval_literal, quoted, blanks.
  repeat (rewrite string_app_assoc || (progress cbn [append])). reflexivity.
Qed.

(** X8.  The text tintervalout writes for an INVAL interval is
    ["Undefined Range"], which tintervalin refuses as a syntax error.  The
    text of a VALID interval with its endpoints in order is read back by
    tintervalin as the same interval, when the texts of the two endpoints
    are free of double quotes, are read back by abstimein as the endpoints,
    and fit the buffer of T_INTERVAL_LEN characters. *)
Theorem tintervalout_tintervalin (mem i : TimeIntervalData) (a b : string) :
  securec_h_ok sc ->
  (status i = T_INTERVAL_INVAL ->
   exists text,
     tintervalout i = Some text /\
     text = String "["%char (quoted INVALID_INTERVAL_STR ++ "]") /\
     tintervalin mem text = Err (ERRCODE_INVALID_DATETIME_FORMAT text)) /\
  (canonical_tinterval i ->
   abstimeout (data0 i) = Some a -> abstimeout (data1 i) = Some b ->
   no_dquote a = true -> no_dquote b = true ->
   String.prefix INVALID_INTERVAL_STR a = false ->
   abstimein a = Ok (data0 i) -> abstimein b = Ok (data1 i) ->
   (String.length a + String.length b + 7 < T_INTERVAL_LEN)%nat ->
   exists text, tintervalout i = Some text /\ tintervalin mem text = Ok i).
Proof.
  intros Hsc. split.
  - intros Hst. eexists. split; [| split; [reflexivity |]].
    + unfold tintervalout, T_INTERVAL_LEN.
      rewrite (strcpy_s_room sc Hsc) by (simpl; lia). cbn [obind].
      rewrite Hst. cbn [Z.eqb T_INTERVAL_INVAL].
      rewrite (strcat_s_room sc Hsc) by (simpl; lia). cbn [obind].
      rewrite (strcat_s_room sc Hsc) by (simpl; lia). reflexivity.
    + reflexivity.
  - intros (Hst & H0 & H1 & Hle) Ha Hb Hqa Hqb Hp Hina Hinb Hroom.
    exists (tinterval_literal 0 0 1 0 a b). split.
    + apply tintervalout_valid; try assumption.
      rewrite Hst. discriminate.
    + unfold tintervalin. rewrite parsetinterval_literal by assumption.
      rewrite Hp, Hina, Hinb. cbn [bind].
      destruct (ABSTIME_sorted _ _ H0 H1 Hle) as [-> ->].
      destruct (Z.eqb_spec (data0 i) INVALID_ABSTIME); [contradiction |].
      destruct (Z.eqb_spec (data1 i) INVALID_ABSTIME); [contradiction |].
      cbn [orb]. rewrite <- Hst. destruct i; reflexivity.
Qed.

End IntervalText.

(** ** More on the binary form *)

Lemma Z_of_byte_range (b : byte) : 0 <= Z_of_byte b < 256.
Proof.
  unfold Z_of_byte. pose proof (Byte.to_N_bounded b). lia.
Qed.

Lemma byte_of_Z_of_byte (b : byte) (z : Z) :
  z mod 256 = Z_of_byte b -> byte_of_Z z = b.
Proof.
  intros Hz. unfold byte_of_Z. rewrite Hz. unfold Z_of_byte.
  rewrite N2Z.id, Byte.of_to_N. reflexivity.
Qed.

(** The bytes pq_sendint32 writes for the integer read from four bytes are
    those four bytes. *)
Lemma sendint32_of_bytes (b3 b2 b1 b0 : byte) :
  pq_sendint32 []
    (wrap32 (Z_of_byte b3 * 16777216 + Z_of_byte b2 * 65536 + Z_of_byte b1 * 256 +
             Z_of_byte b0)) = [b3; b2; b1; b0].
Proof.
  pose proof (Z_of_byte_range b3). pose proof (Z_of_byte_range b2).
  pose proof (Z_of_byte_range b1). pose proof (Z_of_byte_range b0).
  unfold pq_sendint32. cbn [app].
  set (u := Z_of_byte b3 * 16777216 + Z_of_byte b2 * 65536 + Z_of_byte b1 * 256 +
            Z_of_byte b0) in *.
  assert (Hu : wrap32 u mod 4294967296 = u).
  { destruct (wrap32_ex u) as [k ->].
    rewrite (Z.mul_comm 4294967296 k), Z_mod_plus_full. apply Z.mod_small. lia. }
  rewrite Hu.
  repeat f_equal; apply byte_of_Z_of_byte; unfold u;
    generalize (Z_of_byte b3) (Z_of_byte b2) (Z_of_byte b1) (Z_of_byte b0) H H0 H1 H2;
    clear; intros; Z.div_mod_to_equations; lia.
Qed.

Section MoreBinary.

Context {h : nabstime_h} {dt : datetime_h} {sess : knl_session}.

(** X9.  The binary form of a RelativeTime is a one-to-one match between
    the 32-bit values and the messages of four bytes: reltimerecv gives back
    what reltimesend was given, reltimesend writes again the four bytes
    reltimerecv has read, and a shorter message is refused. *)
Theorem reltime_binary_form (x : Z) (b3 b2 b1 b0 : byte) (short : list byte) :
  int32 x -> (List.length short < 4)%nat ->
  reltimerecv (message (reltimesend x)) = Ok x /\
  (exists v, reltimerecv (message [b3; b2; b1; b0]) = Ok v /\ int32 v /\
             reltimesend v = [b3; b2; b1; b0]) /\
  reltimerecv (message short) = Err ERRCODE_PROTOCOL_VIOLATION.
Proof.
  intros Hx Hshort. split; [| split].
  - unfold reltimerecv, message, reltimesend, pq_endtypsend, pq_sendint32,
      pq_begintypsend.
    cbn [app]. erewrite pq_getmsgint_at by reflexivity.
    cbn [bind]. rewrite sendint32_value, wrap32_of_unsigned by assumption. reflexivity.
  - eexists. split; [| split].
    + unfold reltimerecv, message. erewrite pq_getmsgint_at by reflexivity.
      cbn [bind]. reflexivity.
    + apply wrap32_int32.
    + unfold reltimesend, pq_endtypsend, pq_begintypsend. apply sendint32_of_bytes.
  - unfold reltimerecv, message, pq_getmsgint. cbn [data cursor skipn].
    destruct short as [| a [| b [| c [| d l]]]]; try reflexivity.
    simpl in Hshort. lia.
Qed.

Lemma tintervalrecv_tintervalsend (mem i : TimeIntervalData) :
  int32 (status i) -> int32 (data0 i) -> int32 (data1 i) ->
  tintervalrecv mem (message (tintervalsend i)) =
    if negb (status_of (data0 i) (data1 i) =? status i)
    then Err ERRCODE_INVALID_BINARY_REPRESENTATION
    else Ok i.
Proof.
  intros Hst Hs He. destruct i as [st s e]. cbn [status data0 data1] in *.
  unfold tintervalrecv, message, tintervalsend, pq_endtypsend, pq_sendint32,
    pq_begintypsend.
  cbn [app status data0 data1].
  erewrite pq_getmsgint_at by reflexivity. cbn [bind].
  erewrite pq_getmsgint_at by reflexivity. cbn [bind].
  erewrite pq_getmsgint_at by reflexivity. cbn [bind].
  cbn [status data0 data1].
  rewrite !sendint32_value, !wrap32_of_unsigned by assumption.
  reflexivity.
Qed.

(** X10.  An interval survives tintervalsend and tintervalrecv exactly when
    its status is the one its endpoints call for.  So does every interval
    tintervalin returns and every one mktinterval builds from two times that
    are not INVALID; one that mktinterval builds from an INVALID time does
    only if the allocated block happened to hold INVALID_ABSTIME as an
    endpoint. *)
Theorem tinterval_binary_roundtrip (mem i : TimeIntervalData) (str : string) (t1 t2 : Z) :
  int32 (status i) -> int32 (data0 i) -> int32 (data1 i) ->
  int32 t1 -> int32 t2 -> int32 (data0 mem) -> int32 (data1 mem) ->
  (tintervalrecv mem (message (tintervalsend i)) = Ok i <->
   status i = status_of (data0 i) (data1 i)) /\
  (tintervalin mem str = Ok i ->
   tintervalrecv mem (message (tintervalsend i)) = Ok i) /\
  (t1 <> INVALID_ABSTIME -> t2 <> INVALID_ABSTIME ->
   tintervalrecv mem (message (tintervalsend (mktinterval mem t1 t2)))
     = Ok (mktinterval mem t1 t2)) /\
  (t1 = INVALID_ABSTIME \/ t2 = INVALID_ABSTIME ->
   (tintervalrecv mem (message (tintervalsend (mktinterval mem t1 t2)))
      = Ok (mktinterval mem t1 t2) <->
    data0 mem = INVALID_ABSTIME \/ data1 mem = INVALID_ABSTIME)).
Proof.
  intros Hst Hs He H1 H2 Hm0 Hm1.
  assert (Hiff : forall j, int32 (status j) -> int32 (data0 j) -> int32 (data1 j) ->
            (tintervalrecv mem (message (tintervalsend j)) = Ok j <->
             status j = status_of (data0 j) (data1 j))).
  { intros j Hj Hj0 Hj1. rewrite tintervalrecv_tintervalsend by assumption.
    destruct (Z.eqb_spec (status_of (data0 j) (data1 j)) (status j)); simpl;
      split; congruence. }
  split; [apply Hiff; assumption |].
  split.
  { intros Hin. apply Hiff; try assumption.
    unfold tintervalin in Hin.
    destruct (parsetinterval str) as [[a b] | e]; [| discriminate].
    cbn [bind] in Hin. injection Hin as <-. cbn [status data0 data1].
    fold (status_of a b).
    destruct (ABSTIME_min_max a b) as [[[-> ->] | [-> ->]] _]; unfold status_of;
      [reflexivity | rewrite orb_comm; reflexivity]. }
  split.
  { intros Hn1 Hn2.
    pose proof (ABSTIME_min_max t1 t2) as [Hperm _].
    unfold mktinterval.
    destruct (Z.eqb_spec t1 INVALID_ABSTIME); [contradiction |].
    destruct (Z.eqb_spec t2 INVALID_ABSTIME); [contradiction |]. cbn [orb].
    apply Hiff; cbn [status data0 data1].
    - unfold int32, INT_MIN, INT_MAX, T_INTERVAL_VALID. lia.
    - destruct Hperm as [[-> _] | [-> _]]; assumption.
    - destruct Hperm as [[_ ->] | [_ ->]]; assumption.
    - unfold status_of.
      destruct Hperm as [[-> ->] | [-> ->]];
        repeat match goal with
               | |- context [?x =? INVALID_ABSTIME] =>
                   destruct (Z.eqb_spec x INVALID_ABSTIME); [contradiction |]
               end; reflexivity. }
  intros Hinv.
  assert (Hmk : mktinterval mem t1 t2 =
                {| status := T_INTERVAL_INVAL; data0 := data0 mem; data1 := data1 mem |}).
  { unfold mktinterval.
    destruct (Z.eqb_spec t1 INVALID_ABSTIME), (Z.eqb_spec t2 INVALID_ABSTIME);
      try reflexivity. destruct Hinv; contradiction. }
  rewrite Hmk. rewrite Hiff; cbn [status data0 data1]; try assumption.
  - pose proof (status_of_INVAL (data0 mem) (data1 mem)) as Hso.
    split; intros Hx; [apply Hso; symmetry; exact Hx | symmetry; apply Hso; exact Hx].
  - unfold int32, INT_MIN, INT_MAX, T_INTERVAL_INVAL. lia.
Qed.

End MoreBinary.

(** ** The operators on intervals *)

Section IntervalOperators.

Context {h : nabstime_h} {dt : datetime_h} {sess : knl_session} {sc : securec_h}.

(** X11.  The endpoints of an interval with status INVAL are never looked
    at: two such intervals, whatever their endpoints, are treated alike by
    every operator and by tintervalout. *)
Theorem INVAL_endpoints_never_read (i j k : TimeIntervalData) (t r : Z) :
  status i = T_INTERVAL_INVAL -> status j = T_INTERVAL_INVAL ->
  tintervalstart i = tintervalstart j /\ tintervalend i = tintervalend j /\
  tintervalrel i = tintervalrel j /\ intinterval t i = intinterval t j /\
  tinterval_cmp_internal i k = tinterval_cmp_internal j k /\
  tinterval_cmp_internal k i = tinterval_cmp_internal k j /\
  tintervalsame i k = tintervalsame j k /\ tintervalsame k i = tintervalsame k j /\
  tintervalct i k = tintervalct j k /\ tintervalct k i = tintervalct k j /\
  tintervalov i k = tintervalov j k /\ tintervalov k i = tintervalov k j /\
  tintervalleneq i r = tintervalleneq j r /\ tintervallenne i r = tintervallenne j r /\
  tintervallenlt i r = tintervallenlt j r /\ tintervallengt i r = tintervallengt j r /\
  tintervallenle i r = tintervallenle j r /\ tintervallenge i r = tintervallenge j r /\
  tintervalout i = tintervalout j.
Proof.
  intros Hi Hj.
  unfold tintervalstart, tintervalend, tintervalrel, intinterval,
    tinterval_cmp_internal, tinterval_invalid, tintervalsame, tintervalct, tintervalov,
    tintervalleneq, tintervallenne, tintervallenlt, tintervallengt, tintervallenle,
    tintervallenge, tintervalout.
  rewrite Hi, Hj. cbn [Z.eqb T_INTERVAL_INVAL T_INTERVAL_VALID negb orb andb].
  rewrite !orb_true_r.
  repeat split; reflexivity.
Qed.

Lemma ABSTIMEMIN_min (t1 t2 : Z) :
  t1 <> INVALID_ABSTIME -> t2 <> INVALID_ABSTIME ->
  ABSTIMEMIN t1 t2 = Z.min t1 t2 /\ ABSTIMEMAX t1 t2 = Z.max t1 t2.
Proof.
  intros H1 H2.
  unfold ABSTIMEMIN, ABSTIMEMAX, abstimele, abstimelt, abstime_cmp_internal.
  destruct (Z.eqb_spec t1 INVALID_ABSTIME); [contradiction |].
  destruct (Z.eqb_spec t2 INVALID_ABSTIME); [contradiction |].
  destruct (Z.gtb_spec t1 t2); simpl; [lia |].
  destruct (Z.eqb_spec t1 t2); simpl; lia.
Qed.

Lemma abstimele_numeric (a b : Z) :
  a <> INVALID_ABSTIME -> b <> INVALID_ABSTIME ->
  abstimele a b = (a <=? b) /\ abstimege a b = (b <=? a).
Proof.
  intros Ha Hb. unfold abstimele, abstimege, abstime_cmp_internal.
  destruct (Z.eqb_spec a INVALID_ABSTIME); [contradiction |].
  destruct (Z.eqb_spec b INVALID_ABSTIME); [contradiction |].
  destruct (Z.gtb_spec a b), (Z.eqb_spec a b), (Z.leb_spec a b), (Z.leb_spec b a);
    simpl; split; reflexivity || lia.
Qed.

(** X12.  What mktinterval builds can be asked back, whatever the
    allocated block held: with an INVALID time tintervalstart and
    tintervalend give INVALID_ABSTIME and no time is in the interval;
    otherwise they give the smaller and the larger of the two times, and a
    time is in the interval exactly when it is not INVALID and lies between
    them, both included. *)
Theorem mktinterval_queries (mem : TimeIntervalData) (t1 t2 t : Z) :
  (t1 = INVALID_ABSTIME \/ t2 = INVALID_ABSTIME ->
   tintervalstart (mktinterval mem t1 t2) = INVALID_ABSTIME /\
   tintervalend (mktinterval mem t1 t2) = INVALID_ABSTIME /\
   intinterval t (mktinterval mem t1 t2) = false) /\
  (t1 <> INVALID_ABSTIME -> t2 <> INVALID_ABSTIME ->
   tintervalstart (mktinterval mem t1 t2) = Z.min t1 t2 /\
   tintervalend (mktinterval mem t1 t2) = Z.max t1 t2 /\
   (intinterval t (mktinterval mem t1 t2) = true <->
    t <> INVALID_ABSTIME /\ Z.min t1 t2 <= t <= Z.max t1 t2)).
Proof.
  split.
  - intros Hinv.
    assert (Hmk : mktinterval mem t1 t2 =
                  {| status := T_INTERVAL_INVAL; data0 := data0 mem; data1 := data1 mem |}).
    { unfold mktinterval.
      destruct (Z.eqb_spec t1 INVALID_ABSTIME), (Z.eqb_spec t2 INVALID_ABSTIME);
        try reflexivity. destruct Hinv; contradiction. }
    rewrite Hmk. repeat split; reflexivity.
  - intros H1 H2.
    destruct (ABSTIMEMIN_min t1 t2 H1 H2) as [Hmin Hmax].
    unfold mktinterval.
    destruct (Z.eqb_spec t1 INVALID_ABSTIME); [contradiction |].
    destruct (Z.eqb_spec t2 INVALID_ABSTIME); [contradiction |]. cbn [orb].
    rewrite Hmin, Hmax.
    split; [reflexivity |]. split; [reflexivity |].
    unfold intinterval. cbn [status data0 data1 Z.eqb T_INTERVAL_VALID andb].
    destruct (Z.eqb_spec t INVALID_ABSTIME) as [-> | Ht]; cbn [negb].
    + split; [discriminate | intros [Hc _]; contradiction].
    + rewrite (proj2 (abstimele_numeric t (Z.min t1 t2) Ht ltac:(lia))).
      rewrite (proj1 (abstimele_numeric t (Z.max t1 t2) Ht ltac:(lia))).
      destruct (Z.leb_spec (Z.min t1 t2) t), (Z.leb_spec t (Z.max t1 t2)); cbn [andb].
      * split; [intros _; split; [assumption | lia] | reflexivity].
      * split; [discriminate | intros [_ Hb]; lia].
      * split; [discriminate | intros [_ Hb]; lia].
      * split; [discriminate | intros [_ Hb]; lia].
Qed.

(** X13.  Containment and overlap of intervals that are not INVAL:
    tintervalct is reflexive and transitive, a time in the contained
    interval is in the containing one, tintervalov is symmetric, and an
    interval that contains another whose start is not after its end
    overlaps it. *)
Theorem containment_and_overlap (i1 i2 i3 : TimeIntervalData) (t : Z) :
  (status i1 <> T_INTERVAL_INVAL -> tintervalct i1 i1 = true) /\
  (tintervalct i1 i2 = true -> tintervalct i2 i3 = true -> tintervalct i1 i3 = true) /\
  (tintervalct i1 i2 = true -> status i1 = T_INTERVAL_VALID ->
   intinterval t i2 = true -> intinterval t i1 = true) /\
  tintervalov i1 i2 = tintervalov i2 i1 /\
  (tintervalct i1 i2 = true -> abstimele (data0 i2) (data1 i2) = true ->
   tintervalov i1 i2 = true).
Proof.
  assert (Hrefl : forall a, abstime_cmp_internal a a = 0).
  { intros a. pose proof (abstime_cmp_internal_antisym a a). lia. }
  split; [| split; [| split; [| split]]].
  - intros Hst. unfold tintervalct, abstimele, abstimege.
    destruct (Z.eqb_spec (status i1) T_INTERVAL_INVAL); [contradiction |].
    rewrite !Hrefl. reflexivity.
  - unfold tintervalct, abstimele, abstimege.
    destruct (Z.eqb_spec (status i1) T_INTERVAL_INVAL); [discriminate |].
    destruct (Z.eqb_spec (status i2) T_INTERVAL_INVAL); [discriminate |].
    destruct (Z.eqb_spec (status i3) T_INTERVAL_INVAL);
      [rewrite orb_true_r; discriminate |]. cbn [orb].
    pose proof (abstime_cmp_internal_trans (data0 i1) (data0 i2) (data0 i3)) as Hs.
    pose proof (abstime_cmp_internal_trans (data1 i3) (data1 i2) (data1 i1)) as He.
    pose proof (abstime_cmp_internal_antisym (data1 i1) (data1 i2)).
    pose proof (abstime_cmp_internal_antisym (data1 i2) (data1 i3)).
    pose proof (abstime_cmp_internal_antisym (data1 i1) (data1 i3)).
    destruct (Z.leb_spec (abstime_cmp_internal (data0 i1) (data0 i2)) 0); [| discriminate].
    destruct (Z.geb_spec (abstime_cmp_internal (data1 i1) (data1 i2)) 0); [| discriminate].
    destruct (Z.leb_spec (abstime_cmp_internal (data0 i2) (data0 i3)) 0); [| discriminate].
    destruct (Z.geb_spec (abstime_cmp_internal (data1 i2) (data1 i3)) 0); [| discriminate].
    intros _ _.
    destruct (Z.leb_spec (abstime_cmp_internal (data0 i1) (data0 i3)) 0); [| lia].
    destruct (Z.geb_spec (abstime_cmp_internal (data1 i1) (data1 i3)) 0); [| lia].
    reflexivity.
  - unfold tintervalct, intinterval, abstimele, abstimege.
    destruct (Z.eqb_spec (status i1) T_INTERVAL_INVAL); [discriminate |].
    destruct (Z.eqb_spec (status i2) T_INTERVAL_INVAL); [discriminate |]. cbn [orb].
    intros Hct ->. rewrite Z.eqb_refl.
    destruct (status i2 =? T_INTERVAL_VALID); [| discriminate].
    destruct (negb (t =? INVALID_ABSTIME)); [| discriminate]. cbn [andb].
    pose proof (abstime_cmp_internal_trans (data0 i1) (data0 i2) t) as Hs.
    pose proof (abstime_cmp_internal_trans t (data1 i2) (data1 i1)) as He.
    pose proof (abstime_cmp_internal_antisym t (data0 i2)).
    pose proof (abstime_cmp_internal_antisym t (data0 i1)).
    pose proof (abstime_cmp_internal_antisym (data1 i1) (data1 i2)).
    revert Hct.
    destruct (Z.leb_spec (abstime_cmp_internal (data0 i1) (data0 i2)) 0); [| discriminate].
    destruct (Z.geb_spec (abstime_cmp_internal (data1 i1) (data1 i2)) 0); [| discriminate].
    intros _.
    destruct (Z.geb_spec (abstime_cmp_internal t (data0 i2)) 0); [| discriminate].
    destruct (Z.leb_spec (abstime_cmp_internal t (data1 i2)) 0); [| discriminate].
    intros _.
    destruct (Z.geb_spec (abstime_cmp_internal t (data0 i1)) 0); [| lia].
    destruct (Z.leb_spec (abstime_cmp_internal t (data1 i1)) 0); [| lia].
    reflexivity.
  - unfold tintervalov, abstimelt, abstimegt.
    rewrite (orb_comm (status i2 =? T_INTERVAL_INVAL)).
    destruct ((status i1 =? T_INTERVAL_INVAL) || (status i2 =? T_INTERVAL_INVAL));
      [reflexivity |].
    rewrite (abstime_cmp_internal_antisym (data0 i2) (data1 i1)).
    rewrite (abstime_cmp_internal_antisym (data0 i1) (data1 i2)).
    destruct (abstime_cmp_internal_cases (data0 i2) (data1 i1)) as [-> | [-> | ->]];
      destruct (abstime_cmp_internal_cases (data0 i1) (data1 i2)) as [-> | [-> | ->]];
      reflexivity.
  - unfold tintervalct, tintervalov, abstimele, abstimege, abstimelt, abstimegt.
    destruct ((status i1 =? T_INTERVAL_INVAL) || (status i2 =? T_INTERVAL_INVAL));
      [discriminate |].
    pose proof (abstime_cmp_internal_trans (data0 i1) (data0 i2) (data1 i2)) as Hs.
    pose proof (abstime_cmp_internal_trans (data0 i2) (data1 i2) (data1 i1)) as He.
    pose proof (abstime_cmp_internal_antisym (data1 i1) (data1 i2)).
    pose proof (abstime_cmp_internal_antisym (data1 i1) (data0 i2)).
    destruct (Z.leb_spec (abstime_cmp_internal (data0 i1) (data0 i2)) 0); [| discriminate].
    destruct (Z.geb_spec (abstime_cmp_internal (data1 i1) (data1 i2)) 0); [| discriminate].
    intros _.
    destruct (Z.leb_spec (abstime_cmp_internal (data0 i2) (data1 i2)) 0); [| discriminate].
    intros _.
    destruct (Z.ltb_spec (abstime_cmp_internal (data1 i1) (data0 i2)) 0); [lia |].
    destruct (Z.gtb_spec (abstime_cmp_internal (data0 i1) (data1 i2)) 0); [lia |].
    reflexivity.
Qed.

End IntervalOperators.

(** ** The length of an interval *)

Section IntervalLength.

Context {h : nabstime_h}.


(** X15.  The six comparisons of the length of an interval with a
    relative time are all false when the interval is INVAL, when the
    relative time is INVALID or when the length is INVALID_RELTIME, so that
    tintervallenne is then not the negation of tintervalleneq.  Otherwise
    they are the six comparisons of the length with the relative time. *)
Theorem tintervallen_comparisons (i : TimeIntervalData) (t : Z) :
  (status i = T_INTERVAL_INVAL \/ t = INVALID_RELTIME \/
   tintervalrel i = INVALID_RELTIME ->
   tintervalleneq i t = false /\ tintervallenne i t = false /\
   tintervallenlt i t = false /\ tintervallengt i t = false /\
   tintervallenle i t = false /\ tintervallenge i t = false) /\
  (status i <> T_INTERVAL_INVAL -> t <> INVALID_RELTIME ->
   tintervalrel i <> INVALID_RELTIME ->
   (tintervalleneq i t = true <-> tintervalrel i = t) /\
   tintervallenne i t = negb (tintervalleneq i t) /\
   (tintervallenlt i t = true <-> tintervalrel i < t) /\
   tintervallengt i t = negb (tintervallenle i t) /\
   tintervallenle i t = tintervallenlt i t || tintervalleneq i t /\
   tintervallenge i t = negb (tintervallenlt i t)).
Proof.
  unfold tintervalleneq, tintervallenne, tintervallenlt, tintervallengt,
    tintervallenle, tintervallenge.
  split.
  - intros [Hst | [Ht | Hr]].
    + rewrite Hst. repeat split; reflexivity.
    + rewrite Ht, Z.eqb_refl, orb_true_r. repeat split; reflexivity.
    + rewrite Hr, Z.eqb_refl.
      destruct ((status i =? T_INTERVAL_INVAL) || (t =? INVALID_RELTIME));
        repeat split; reflexivity.
  - intros Hst Ht Hr.
    destruct (Z.eqb_spec (status i) T_INTERVAL_INVAL); [contradiction |].
    destruct (Z.eqb_spec t INVALID_RELTIME); [contradiction |].
    destruct (Z.eqb_spec (tintervalrel i) INVALID_RELTIME); [contradiction |].
    cbn [orb negb andb].
    destruct (Z.eqb_spec (tintervalrel i) t), (Z.ltb_spec (tintervalrel i) t),
      (Z.gtb_spec (tintervalrel i) t), (Z.leb_spec (tintervalrel i) t),
      (Z.geb_spec (tintervalrel i) t); try lia;
      cbn [orb negb andb]; repeat split; try reflexivity; try discriminate;
      try assumption; try lia.
Qed.

End IntervalLength.

(** ** RelativeTime, Interval and the text of a span *)

Section Spans.

Context {h : nabstime_h} {dt : datetime_h} {isc : interval_scanner}.

(** X16.  Turning a relative time into an Interval and back gives the same
    relative time as long as what is left after the whole years is less
    than 360 days; from 360 days on, reltime_interval counts twelve months
    of 30 days, interval_reltime reads them as a year of 365.25 days, and
    the result is off by 453600 seconds. *)
Theorem reltime_interval_roundtrip (reltime : Z) :
  int32 reltime -> reltime <> INVALID_RELTIME ->
  exists interval,
    reltime_interval reltime = Ok interval /\
    (-31104000 < Z.rem reltime 31557600 < 31104000 ->
     interval_reltime interval = reltime) /\
    (31104000 <= Z.rem reltime 31557600 ->
     interval_reltime interval = reltime + 453600) /\
    (Z.rem reltime 31557600 <= -31104000 ->
     interval_reltime interval = reltime - 453600).
Proof.
  intros Hr Hne.
  destruct (reltime_interval_decomposes reltime Hr) as [_ Hdec].
  specialize (Hdec Hne). cbv zeta in Hdec.
  eexists. split; [exact Hdec |].
  set (year := Z.quot reltime 31557600) in *.
  set (r1 := Z.rem reltime 31557600) in *.
  set (mon := Z.quot r1 2592000) in *.
  set (r2 := Z.rem r1 2592000) in *.
  set (dd := Z.quot r2 86400) in *.
  set (r3 := Z.rem r2 86400) in *.
  assert (Hfacts :
    reltime = 31557600 * year + r1 /\ r1 = 2592000 * mon + r2 /\ r2 = 86400 * dd + r3 /\
    (0 <= reltime -> 0 <= year /\ 0 <= r1 < 31557600 /\ 0 <= mon /\ 0 <= r2 < 2592000 /\
                     0 <= dd /\ 0 <= r3 < 86400) /\
    (reltime <= 0 -> year <= 0 /\ -31557600 < r1 <= 0 /\ mon <= 0 /\ -2592000 < r2 <= 0 /\
                     dd <= 0 /\ -86400 < r3 <= 0)).
  { unfold year, r1, mon, r2, dd, r3. Z.quot_rem_to_equations. lia. }
  clearbody year r1 mon r2 dd r3.
  destruct Hfacts as (E1 & E2 & E3 & Hpos & Hneg).
  unfold int32, INT_MIN, INT_MAX in Hr.
  assert (Hflat : forall q m,
            Z.quot (12 * year + mon) 12 = q -> Z.rem (12 * year + mon) 12 = m ->
            interval_reltime {| time := r3 * 1000000; day := dd; month := 12 * year + mon |}
            = 31557600 * q + 2592000 * m + 86400 * dd + r3).
  { intros q m Hq Hm.
    assert (Hq' : -179 <= q <= 179 /\ -12 < m < 12)
      by (subst q m; Z.quot_rem_to_equations; lia).
    assert (Husecs : flattened_usecs
                       {| time := r3 * 1000000; day := dd; month := 12 * year + mon |}
                     = (31557600 * q + 2592000 * m + 86400 * dd + r3) * 1000000).
    { unfold flattened_usecs. cbn [time day month]. rewrite Hq, Hm. lia. }
    assert (Hsecs : flattened_secs
                      {| time := r3 * 1000000; day := dd; month := 12 * year + mon |}
                    = 31557600 * q + 2592000 * m + 86400 * dd + r3).
    { unfold flattened_secs. rewrite Husecs. apply Z.quot_mul. lia. }
    rewrite interval_reltime_without_overflow
      by (rewrite Husecs; unfold int64; lia).
    rewrite Hsecs.
    assert (Hq2 : q = year + Z.quot mon 12 /\ m = Z.rem mon 12)
      by (subst q m; Z.quot_rem_to_equations; lia).
    destruct ((_ <? INT_MIN) || (_ >? INT_MAX)) eqn:Hout; [| reflexivity].
    exfalso. unfold INT_MIN, INT_MAX in Hout.
    destruct Hq2 as [-> ->]. revert Hout. Z.quot_rem_to_equations. lia. }
  split; [| split].
  - intros Hsmall.
    rewrite (Hflat year mon); [lia | |]; Z.quot_rem_to_equations; lia.
  - intros Hbig.
    rewrite (Hflat (year + 1) 0); [lia | |]; Z.quot_rem_to_equations; lia.
  - intros Hbig.
    rewrite (Hflat (year - 1) 0); [lia | |]; Z.quot_rem_to_equations; lia.
Qed.

Lemma reltimein_sum (tm : pg_tm) :
  add32 (add32 (mul32 (add32 (mul32 (tm_hour tm) MINS_PER_HOUR) (tm_min tm))
                      SECS_PER_MINUTE)
               (tm_sec tm))
        (add32 (mul32 (tm_year tm) SECS_PER_YEAR)
               (mul32 (add32 (mul32 (tm_mon tm) DAYS_PER_MONTH) (tm_mday tm))
                      SECS_PER_DAY)) = wrap32 (delta_seconds tm).
Proof.
  unfold add32, mul32, delta_seconds, MINS_PER_HOUR, SECS_PER_MINUTE, SECS_PER_YEAR,
    DAYS_PER_MONTH, SECS_PER_DAY.
  change (36525 * 864) with 31557600.
  generalize (tm_year tm) (tm_mon tm) (tm_mday tm) (tm_hour tm) (tm_min tm) (tm_sec tm).
  intros y mo d hh mi ss.
  match goal with |- ?lhs = ?rhs => remember lhs as l eqn:El; remember rhs as r eqn:Er end.
  assert (Hl : int32 l) by (subst l; apply wrap32_int32).
  assert (Hr : int32 r) by (subst r; apply wrap32_int32).
  repeat match type of El with
         | context [wrap32 ?z] =>
             let k := fresh "k" in
             let E := fresh "E" in
             destruct (wrap32_ex z) as [k E]; rewrite E in El; clear E
         end.
  destruct (wrap32_ex (y * 31557600 + (mo * 30 + d) * 86400 + (hh * 60 + mi) * 60 + ss))
    as [k' E'].
  rewrite E' in Er.
  unfold int32, INT_MIN, INT_MAX in *. lia.
Qed.

(** X17.  For a text the scanner reads as a span, reltimein returns the
    seconds of the span, a year counting 365.25 days and a month 30 days,
    reduced to 32 bits: a span beyond the 32-bit range is not refused but
    wraps around.  Within the range, and with less than twelve months of
    the sign of the years, this is what interval_reltime gives for the
    Interval of the same fields.  A text the scanner refuses raises its
    error, a field overflow being reported as an interval overflow. *)
Theorem reltimein_seconds (str : string) (fields : list (string * dtk)) (tm : pg_tm)
    (dterr : Z) (dtype : dtk) :
  DTERR_BAD_FORMAT <> 0 ->
  ParseDateTime str = (0, fields) ->
  (DecodeInterval fields = (0, DTK_DELTA, tm) ->
   reltimein str = Ok (wrap32 (delta_seconds tm)) /\
   (int32 (delta_seconds tm) -> reltimein str = Ok (delta_seconds tm)) /\
   (let interval :=
      {| time := ((tm_hour tm * 60 + tm_min tm) * 60 + tm_sec tm) * 1000000;
         day := tm_mday tm;
         month := 12 * tm_year tm + tm_mon tm |} in
    int32 (delta_seconds tm) -> int64 (flattened_usecs interval) ->
    -12 < tm_mon tm < 12 -> 0 <= tm_year tm * tm_mon tm ->
    Ok (interval_reltime interval) = reltimein str)) /\
  (DecodeInterval fields = (dterr, dtype, tm) ->
   dterr <> 0 -> dterr <> DTERR_BAD_FORMAT ->
   reltimein str =
     Err (DateTimeParseError
            (if dterr =? DTERR_FIELD_OVERFLOW then DTERR_INTERVAL_OVERFLOW else dterr) str)).
Proof.
  intros Hbad Hparse. split.
  - intros Hdec.
    assert (Hin : reltimein str = Ok (wrap32 (delta_seconds tm))).
    { unfold reltimein. rewrite Hparse. cbn [Z.eqb]. rewrite Hdec.
      destruct (Z.eqb_spec 0 DTERR_BAD_FORMAT); [congruence |].
      cbn [Z.eqb negb]. rewrite reltimein_sum. reflexivity. }
    split; [exact Hin |].
    split; [intros Hfit; rewrite Hin, (wrap32_id _ Hfit); reflexivity |].
    intros interval Hfit Hfit64 Hmon Hsign.
    rewrite Hin, (wrap32_id _ Hfit). f_equal.
    rewrite interval_reltime_without_overflow by assumption.
    assert (Hsecs : flattened_secs interval = delta_seconds tm).
    { unfold flattened_secs, flattened_usecs, interval, delta_seconds.
      cbn [time day month].
      assert (Hq : Z.quot (12 * tm_year tm + tm_mon tm) 12 = tm_year tm /\
                   Z.rem (12 * tm_year tm + tm_mon tm) 12 = tm_mon tm)
        by (Z.quot_rem_to_equations; nia).
      destruct Hq as [-> ->].
      replace ((365250000 * tm_year tm + 30000000 * tm_mon tm + 1000000 * tm_mday tm) * 86400 +
               ((tm_hour tm * 60 + tm_min tm) * 60 + tm_sec tm) * 1000000)
        with ((tm_year tm * 31557600 + (tm_mon tm * 30 + tm_mday tm) * 86400 +
               (tm_hour tm * 60 + tm_min tm) * 60 + tm_sec tm) * 1000000) by lia.
      apply Z.quot_mul. lia. }
    rewrite Hsecs. unfold int32 in Hfit.
    destruct (Z.ltb_spec (delta_seconds tm) INT_MIN); [lia |].
    destruct (Z.gtb_spec (delta_seconds tm) INT_MAX); [lia |]. reflexivity.
  - intros Hdec Hne Hnb. unfold reltimein. rewrite Hparse. cbn [Z.eqb]. rewrite Hdec.
    destruct (Z.eqb_spec dterr DTERR_BAD_FORMAT); [contradiction |].
    destruct (Z.eqb_spec dterr 0); [contradiction |]. reflexivity.
Qed.

End Spans.

(** ** What abstimein can return *)

Section Results.

Context {h : nabstime_h} {dt : datetime_h} {sess : knl_session}.

Lemma tm2abstime_real_or_invalid (tm : pg_tm) (tz : Z) :
  tm2abstime tm tz = INVALID_ABSTIME \/ AbsoluteTimeIsReal (tm2abstime tm tz) = true.
Proof.
  unfold tm2abstime.
  repeat match goal with
         | |- context [if ?c then INVALID_ABSTIME else _] =>
             destruct c eqn:?; [left; reflexivity |]
         end.
  right. match goal with H : negb _ = false |- _ => apply negb_false_iff in H; exact H end.
Qed.

Lemma abstime_finite_real (t : Z) :
  nabstime_h_ok h ->
  t = INVALID_ABSTIME \/ t = NOEND_ABSTIME \/ t = NOSTART_ABSTIME \/
  AbsoluteTimeIsReal t = true ->
  abstime_finite t = AbsoluteTimeIsReal t.
Proof.
  intros Hok Ht. unfold abstime_finite.
  destruct (Z.eqb_spec t INVALID_ABSTIME) as [-> | Hi];
    [rewrite (INVALID_not_real h Hok); reflexivity |].
  destruct (Z.eqb_spec t NOSTART_ABSTIME) as [-> | Hs];
    [rewrite (NOSTART_not_real h Hok); reflexivity |].
  destruct (Z.eqb_spec t NOEND_ABSTIME) as [-> | He];
    [rewrite (NOEND_not_real h Hok); reflexivity |].
  destruct Ht as [Ht | [Ht | [Ht | Ht]]]; try contradiction.
  rewrite Ht. reflexivity.
Qed.

(** X18.  Whatever the scanner hands over, a time abstimein returns is one
    of the three reserved values or a real time, so that abstime_finite and
    AbsoluteTimeIsReal agree on it; and abstimein fails only with the error
    of the scanner, which is not 0, or on a kind of date it does not
    know. *)
Theorem abstimein_result (str : string) :
  nabstime_h_ok h ->
  (forall t, abstimein str = Ok t ->
     (t = INVALID_ABSTIME \/ t = NOEND_ABSTIME \/ t = NOSTART_ABSTIME \/
      AbsoluteTimeIsReal t = true) /\
     abstime_finite t = AbsoluteTimeIsReal t) /\
  (forall e, abstimein str = Err e ->
     (exists dterr, dterr <> 0 /\ e = DateTimeParseError dterr str) \/
     (exists dtype, e = ERRCODE_UNRECOGNIZED_NODE_TYPE dtype str)).
Proof.
  intros Hok.
  assert (Hepoch : 0 = INVALID_ABSTIME \/ AbsoluteTimeIsReal 0 = true).
  { destruct (Z.eq_dec 0 INVALID_ABSTIME) as [E | E]; [left; exact E | right].
    apply (between_real h Hok); [| exact E].
    pose proof (NOSTART_before_epoch h Hok). pose proof (NOEND_after_epoch h Hok). lia. }
  split.
  - intros t Hin.
    assert (Hv : t = INVALID_ABSTIME \/ t = NOEND_ABSTIME \/ t = NOSTART_ABSTIME \/
                 AbsoluteTimeIsReal t = true).
    { unfold abstimein in Hin.
      destruct (ParseDateTime str) as [dterr fields].
      destruct (negb (dterr =? 0)); [discriminate |].
      destruct (DecodeDateTime (first_nf fields)) as [[[dterr' dtype] tm] tz].
      destruct (negb (dterr' =? 0)); [discriminate |].
      destruct dtype; try discriminate; injection Hin as <-; auto.
      - destruct (tm2abstime_real_or_invalid tm tz); auto.
      - destruct Hepoch; auto. }
    split; [exact Hv | apply abstime_finite_real; assumption].
  - intros e Hin. unfold abstimein in Hin.
    destruct (ParseDateTime str) as [dterr fields].
    destruct (Z.eqb_spec dterr 0) as [_ | Hne]; cbn [negb] in Hin;
      [| left; exists dterr; split; [exact Hne | congruence]].
    destruct (DecodeDateTime (first_nf fields)) as [[[dterr' dtype] tm] tz].
    destruct (Z.eqb_spec dterr' 0) as [_ | Hne]; cbn [negb] in Hin;
      [| left; exists dterr'; split; [exact Hne | congruence]].
    right. exists dtype. destruct dtype; try discriminate; congruence.
Qed.

End Results.


(** ** The statements at the instance *)

Lemma nabstime_h_inst_ok : nabstime_h_ok nabstime_h_inst.
Proof.
  constructor; simpl; unfold int32, INT_MIN, INT_MAX; try lia; try reflexivity.
Qed.

#[local] Existing Instance nabstime_h_inst.
#[local] Existing Instance datetime_h_inst.
#[local] Existing Instance knl_session_inst.

Lemma cmp_internal_sentinel_policy_witness :
  abstime_cmp_internal INVALID_ABSTIME 7 > 0 /\
  abstime_cmp_internal NOSTART_ABSTIME NOEND_ABSTIME = -1 /\
  reltime_cmp_internal 7 INVALID_RELTIME < 0.
Proof.
  destruct (cmp_internal_sentinel_policy INVALID_ABSTIME 7) as [(_ & Hgt & _) _].
  destruct (cmp_internal_sentinel_policy NOSTART_ABSTIME NOEND_ABSTIME)
    as [(_ & _ & _ & Hsgn) _].
  destruct (cmp_internal_sentinel_policy 7 INVALID_RELTIME) as [_ (_ & _ & Hlt & _)].
  split; [apply Hgt; simpl; lia |].
  split; [rewrite Hsgn by (simpl; unfold INT_MIN; lia); reflexivity |].
  apply Hlt. simpl. unfold INT_MIN. lia.
Defined.

Lemma tintervalsame_never_on_invalid_witness :
  let i := {| status := T_INTERVAL_INVAL; data0 := INVALID_ABSTIME; data1 := INVALID_ABSTIME |} in
  let j := {| status := T_INTERVAL_VALID; data0 := 0; data1 := 100 |} in
  (tintervalsame i i = false /\ tintervaleq i i = true) /\ tintervalsame j j = true.
Proof.
  cbv zeta. split.
  - apply (proj1 (proj2 (tintervalsame_never_on_invalid _ _))). split; reflexivity.
  - apply (proj2 (proj2 (tintervalsame_never_on_invalid _ _))); split; reflexivity.
Defined.

Lemma timepl_exact_or_invalid_witness :
  timepl 5 3 = 8 /\ timepl (NOEND_ABSTIME - 1) 2 = INVALID_ABSTIME /\
  timepl 2147483647 (- 10) = INVALID_ABSTIME.
Proof.
  assert (Hreal : forall t, int32 t -> AbsoluteTimeIsReal t = true ->
                            NOSTART_ABSTIME < t < NOEND_ABSTIME).
  { intros t Ht Hr. simpl in *. unfold int32, INT_MIN, INT_MAX in *. lia. }
  assert (H : int32 5 /\ int32 3 /\ int32 2147483647 /\ int32 (- 10) /\
              AbsoluteTimeIsReal 5 = true /\
              RelativeTimeIsValid 3 = true /\ 8 < NOEND_ABSTIME).
  { unfold int32, INT_MAX. simpl. unfold INT_MIN. repeat split; lia. }
  destruct H as (H5 & H3 & Hmax & H10 & Hr & Hrel & H8).
  destruct (timepl_exact_or_invalid 5 3 nabstime_h_inst_ok Hreal H5 H3 Hr Hrel H8)
    as (_ & _ & _ & Hend & Hsum).
  destruct (timepl_exact_or_invalid 2147483647 (- 10) nabstime_h_inst_ok Hreal Hmax H10
              Hr Hrel H8) as (_ & _ & Hother & _ & _).
  split; [exact Hsum |]. split; [exact Hend |].
  apply Hother. intros (Hr' & _). vm_compute in Hr'. discriminate.
Defined.

Lemma timemi_mirrors_timepl_witness :
  timemi 100 40 = timepl 100 (- 40) /\ timemi 100 40 = 60.
Proof.
  assert (H : nabstime_h_ok nabstime_h_inst /\ INVALID_RELTIME = INT_MIN /\
              int32 100 /\ int32 40 /\ AbsoluteTime_value 100 /\ 40 <> INVALID_RELTIME).
  { split; [exact nabstime_h_inst_ok |].
    unfold int32, INT_MAX, AbsoluteTime_value. simpl. unfold INT_MIN.
    repeat split; lia. }
  destruct H as (Hok & Hmin & H1 & H2 & Hv & Hne).
  destruct (timemi_mirrors_timepl 100 40 Hok Hmin H1 H2 Hv) as [Hmirror _].
  split; [exact (Hmirror Hne) | reflexivity].
Defined.

Lemma interval_construction_witness :
  parsetinterval two_dates = Ok (86400, 0) /\
  tintervalin mem0 two_dates = Ok {| status := T_INTERVAL_VALID; data0 := 0; data1 := 86400 |} /\
  mktinterval mem0 86400 0 = {| status := T_INTERVAL_VALID; data0 := 0; data1 := 86400 |}.
Proof.
  assert (Hparse : parsetinterval two_dates = Ok (86400, 0)) by (vm_compute; reflexivity).
  destruct (interval_construction mem0 86400 0 two_dates) as [Hin Hmk].
  destruct (Hin Hparse) as (i & Hi & _).
  split; [exact Hparse |]. split; [| reflexivity].
  rewrite Hi. vm_compute in Hi. injection Hi as <-. reflexivity.
Defined.

Lemma tinterval_cmp_by_length_witness :
  tinterval_cmp_internal {| status := T_INTERVAL_VALID; data0 := 0; data1 := 100 |}
                         {| status := T_INTERVAL_VALID; data0 := 500; data1 := 600 |} = 0.
Proof.
  assert (H : INVALID_ABSTIME <> 0 /\ INVALID_ABSTIME <> 100 /\
              INVALID_ABSTIME <> 500 /\ INVALID_ABSTIME <> 600)
    by (simpl; repeat split; lia).
  destruct H as (H0 & H1 & H5 & H6).
  exact (proj1 (proj2 (tinterval_cmp_by_length mem0 mem0 H0 H1 H5 H6))).
Defined.

Lemma tintervalrecv_checks_status_witness :
  tintervalrecv mem0
    (message (tintervalsend {| status := T_INTERVAL_VALID; data0 := INVALID_ABSTIME; data1 := 5 |}))
  = Err ERRCODE_INVALID_BINARY_REPRESENTATION /\
  tintervalrecv mem0
    (message (tintervalsend {| status := T_INTERVAL_VALID; data0 := 0; data1 := 5 |}))
  = Ok {| status := T_INTERVAL_VALID; data0 := 0; data1 := 5 |}.
Proof.
  assert (H : int32 T_INTERVAL_VALID /\ int32 INVALID_ABSTIME /\ int32 5 /\ int32 0)
    by (unfold int32, INT_MIN, INT_MAX, T_INTERVAL_VALID; simpl; lia).
  destruct H as (Hst & Hi & H5 & H0).
  split.
  - exact (proj2 (proj2 (tintervalrecv_checks_status mem0 _ _ 5 Hst Hi H5)) eq_refl eq_refl).
  - exact (proj1 (proj2 (tintervalrecv_checks_status mem0 _ 0 5 Hst H0 H5)) eq_refl).
Defined.


(** ** Where the code departs from the claims *)

(** C1: the literal is not read as the invalid interval; both the bare
    literal and the literal in its brackets and quotes are syntax errors. *)
Lemma undefined_range_counterexample :
  let bracketed :=
    String "["%char (quoted INVALID_INTERVAL_STR ++ String "]"%char EmptyString)%string in
  tintervalin mem0 INVALID_INTERVAL_STR
    = Err (ERRCODE_INVALID_DATETIME_FORMAT INVALID_INTERVAL_STR) /\
  tintervalin mem0 bracketed = Err (ERRCODE_INVALID_DATETIME_FORMAT bracketed).
Proof. split; reflexivity. Qed.

(** C3: the greatest 32-bit value is none of the three reserved values,
    the relative time is not INVALID and the sum lies strictly between
    NOSTART and NOEND, and timepl gives INVALID_ABSTIME, not the sum: the
    value is above NOEND, and AbsoluteTimeIsReal does not hold of it. *)
Lemma timepl_real_counterexample :
  let t1 := 2147483647 in
  let t2 := - 10 in
  int32 t1 /\ int32 t2 /\
  t1 <> INVALID_ABSTIME /\ t1 <> NOSTART_ABSTIME /\ t1 <> NOEND_ABSTIME /\
  t2 <> INVALID_RELTIME /\ NOSTART_ABSTIME < t1 + t2 < NOEND_ABSTIME /\
  AbsoluteTimeIsReal t1 = false /\
  timepl t1 t2 = INVALID_ABSTIME /\ timepl t1 t2 <> t1 + t2.
Proof.
  cbv zeta. unfold int32, INT_MIN, INT_MAX. simpl. unfold INT_MIN.
  repeat split; try lia; try reflexivity.
  vm_compute. discriminate.
Qed.

(** C2: with an INVALID time, mktinterval leaves the endpoints of the
    allocated block as they were, which are not the two times in order. *)
Lemma mktinterval_counterexample :
  let i := mktinterval mem0 INVALID_ABSTIME 5 in
  status i = T_INTERVAL_INVAL /\ data0 i = 7 /\ data1 i = 7 /\
  data0 i <> ABSTIMEMIN INVALID_ABSTIME 5 /\ data1 i <> ABSTIMEMAX INVALID_ABSTIME 5 /\
  ~ abstime_min_max INVALID_ABSTIME 5 (data0 i) (data1 i).
Proof.
  cbv zeta. repeat split; try reflexivity; try (vm_compute; discriminate).
  intros [[[H _] | [H _]] _]; vm_compute in H; discriminate.
Qed.


(** ** Further statements at the instance *)

Lemma securec_h_inst_ok : securec_h_ok securec_h_inst.
Proof.
  constructor; simpl.
  - intros destMax src Hroom.
    destruct (Nat.ltb_spec (String.length src) destMax); [reflexivity | lia].
  - intros dest destMax src Hroom.
    destruct (Nat.ltb_spec (String.length dest + String.length src) destMax);
      [reflexivity | lia].
Qed.

#[local] Existing Instance securec_h_inst.
#[local] Existing Instance interval_scanner_inst.

Lemma timepl_timemi_never_infinite_witness :
  timepl NOEND_ABSTIME 3 = INVALID_ABSTIME /\
  timemi NOSTART_ABSTIME 3 = INVALID_ABSTIME /\
  (timepl 5 3 = INVALID_ABSTIME \/ NOSTART_ABSTIME < timepl 5 3 < NOEND_ABSTIME).
Proof.
  assert (H : int32 5 /\ int32 3 /\ AbsoluteTime_value 5).
  { unfold int32, INT_MAX, AbsoluteTime_value. simpl. unfold INT_MIN.
    repeat split; lia. }
  destruct H as (H5 & H3 & Hv).
  destruct (timepl_timemi_never_infinite 5 3 nabstime_h_inst_ok H5 H3 Hv)
    as (Hp & _ & _ & _ & He & _ & Hs & _ & _).
  split; [exact He |]. split; [exact Hs | exact Hp].
Defined.

Lemma timepl_timemi_inverse_witness :
  timemi (timepl 5 3) 3 = 5 /\ timepl (timemi 5 3) 3 = 5.
Proof.
  assert (H : int32 5 /\ int32 3 /\ AbsoluteTime_value 5).
  { unfold int32, INT_MAX, AbsoluteTime_value. simpl. unfold INT_MIN.
    repeat split; lia. }
  destruct H as (H5 & H3 & Hv).
  destruct (timepl_timemi_inverse 5 3 nabstime_h_inst_ok H5 H3 Hv) as [Hpl Hmi].
  split; [apply Hpl | apply Hmi]; vm_compute; discriminate.
Defined.

Lemma tm2abstime_exact_or_invalid_witness :
  tm2abstime {| tm_sec := 0; tm_min := 0; tm_hour := 0; tm_mday := 2; tm_mon := 1;
                tm_year := 1970; tm_isdst := -1; tm_gmtoff := 0; tm_zone := None |} 0
  = 86400.
Proof.
  assert (Htz : -86400 <= 0 <= 86400) by lia.
  destruct (tm2abstime_exact_or_invalid
              {| tm_sec := 0; tm_min := 0; tm_hour := 0; tm_mday := 2; tm_mon := 1;
                 tm_year := 1970; tm_isdst := -1; tm_gmtoff := 0; tm_zone := None |} 0 Htz)
    as [Hexact _].
  exact Hexact.
Defined.

Lemma tintervalout_tintervalin_witness :
  let i := {| status := T_INTERVAL_VALID; data0 := 0; data1 := 86400 |} in
  exists text, tintervalout i = Some text /\ tintervalin mem0 text = Ok i.
Proof.
  cbv zeta.
  destruct (tintervalout_tintervalin mem0
              {| status := T_INTERVAL_VALID; data0 := 0; data1 := 86400 |}
              "1970 1 1 0 0 0 0 UTC" "1970 1 2 0 0 0 0 UTC" securec_h_inst_ok)
    as [_ Hvalid].
  apply Hvalid; try reflexivity.
  - unfold canonical_tinterval. simpl. repeat split; lia.
  - unfold T_INTERVAL_LEN. simpl. lia.
Defined.

Lemma reltime_binary_form_witness :
  reltimerecv (message (reltimesend 86400)) = Ok 86400 /\
  reltimerecv (message []) = Err ERRCODE_PROTOCOL_VIOLATION.
Proof.
  assert (Hx : int32 86400) by (unfold int32, INT_MIN, INT_MAX; lia).
  assert (Hs : (List.length (@nil byte) < 4)%nat) by (simpl; lia).
  destruct (reltime_binary_form 86400 x00 x01 x51 x80 [] Hx Hs) as (Hback & _ & Hshort).
  split; [exact Hback | exact Hshort].
Defined.

Lemma tinterval_binary_roundtrip_witness :
  let i := {| status := T_INTERVAL_VALID; data0 := 0; data1 := 5 |} in
  tintervalrecv mem0 (message (tintervalsend i)) = Ok i /\
  tintervalrecv mem0 (message (tintervalsend (mktinterval mem0 5 0))) = Ok i.
Proof.
  cbv zeta.
  assert (H : int32 T_INTERVAL_VALID /\ int32 0 /\ int32 5 /\ int32 7)
    by (unfold int32, INT_MIN, INT_MAX, T_INTERVAL_VALID; lia).
  destruct H as (Hst & H0 & H5 & H7).
  destruct (tinterval_binary_roundtrip mem0
              {| status := T_INTERVAL_VALID; data0 := 0; data1 := 5 |} two_dates 5 0
              Hst H0 H5 H5 H0 H7 H7) as (Hiff & _ & Hmk & _).
  split; [apply Hiff; reflexivity |].
  apply Hmk; simpl; lia.
Defined.

Lemma INVAL_endpoints_never_read_witness :
  let i := {| status := T_INTERVAL_INVAL; data0 := 1; data1 := 2 |} in
  let j := {| status := T_INTERVAL_INVAL; data0 := 3; data1 := 4 |} in
  tintervalrel i = tintervalrel j /\ tintervalout i = tintervalout j.
Proof.
  cbv zeta.
  destruct (INVAL_endpoints_never_read
              {| status := T_INTERVAL_INVAL; data0 := 1; data1 := 2 |}
              {| status := T_INTERVAL_INVAL; data0 := 3; data1 := 4 |}
              mem0 0 0 eq_refl eq_refl)
    as (_ & _ & Hrel & _ & _ & _ & _ & _ & _ & _ & _ & _ & _ & _ & _ & _ & _ & _ & Hout).
  split; [exact Hrel | exact Hout].
Defined.


Lemma reltime_interval_roundtrip_witness :
  (exists interval,
     reltime_interval 86400 = Ok interval /\ interval_reltime interval = 86400) /\
  (exists interval,
     reltime_interval 31104000 = Ok interval /\
     interval_reltime interval = 31104000 + 453600).
Proof.
  assert (H : int32 86400 /\ 86400 <> INVALID_RELTIME /\
              int32 31104000 /\ 31104000 <> INVALID_RELTIME)
    by (simpl; unfold int32, INT_MIN, INT_MAX; lia).
  destruct H as (Ha & Ha' & Hb & Hb').
  destruct (reltime_interval_roundtrip 86400 Ha Ha') as (ia & Hia & Hsmall & _).
  destruct (reltime_interval_roundtrip 31104000 Hb Hb') as (ib & Hib & _ & Hbig & _).
  split.
  - exists ia. split; [exact Hia | apply Hsmall; vm_compute; split; reflexivity].
  - exists ib. split; [exact Hib | apply Hbig; vm_compute; discriminate].
Defined.

Lemma reltimein_seconds_witness :
  reltimein "1 0 0 0 0 0" = Ok 31557600 /\
  reltimein "100 0 0 0 0 0" = Ok (-1139207296).
Proof.
  assert (Hbad : DTERR_BAD_FORMAT <> 0) by (simpl; lia).
  assert (Hp1 : ParseDateTime "1 0 0 0 0 0" = (0, snd (ParseDateTime "1 0 0 0 0 0")))
    by (vm_compute; reflexivity).
  assert (Hp2 : ParseDateTime "100 0 0 0 0 0" = (0, snd (ParseDateTime "100 0 0 0 0 0")))
    by (vm_compute; reflexivity).
  assert (Hd1 : DecodeInterval (snd (ParseDateTime "1 0 0 0 0 0")) =
                (0, DTK_DELTA,
                 {| tm_sec := 0; tm_min := 0; tm_hour := 0; tm_mday := 0; tm_mon := 0;
                    tm_year := 1; tm_isdst := 0; tm_gmtoff := 0; tm_zone := None |}))
    by (vm_compute; reflexivity).
  assert (Hd2 : DecodeInterval (snd (ParseDateTime "100 0 0 0 0 0")) =
                (0, DTK_DELTA,
                 {| tm_sec := 0; tm_min := 0; tm_hour := 0; tm_mday := 0; tm_mon := 0;
                    tm_year := 100; tm_isdst := 0; tm_gmtoff := 0; tm_zone := None |}))
    by (vm_compute; reflexivity).
  destruct (reltimein_seconds _ _
              {| tm_sec := 0; tm_min := 0; tm_hour := 0; tm_mday := 0; tm_mon := 0;
                 tm_year := 1; tm_isdst := 0; tm_gmtoff := 0; tm_zone := None |}
              0 DTK_DELTA Hbad Hp1) as [Hone _].
  destruct (reltimein_seconds _ _
              {| tm_sec := 0; tm_min := 0; tm_hour := 0; tm_mday := 0; tm_mon := 0;
                 tm_year := 100; tm_isdst := 0; tm_gmtoff := 0; tm_zone := None |}
              0 DTK_DELTA Hbad Hp2) as [Hwrap _].
  split; [exact (proj1 (Hone Hd1)) | exact (proj1 (Hwrap Hd2))].
Defined.

Lemma abstimein_result_witness :
  abstimein "1970 1 2 0 0 0 0 UTC" = Ok 86400 /\
  abstime_finite 86400 = AbsoluteTimeIsReal 86400 /\
  abstime_finite 86400 = true.
Proof.
  assert (Hin : abstimein "1970 1 2 0 0 0 0 UTC" = Ok 86400) by reflexivity.
  destruct (abstimein_result "1970 1 2 0 0 0 0 UTC" nabstime_h_inst_ok) as [Hok _].
  destruct (Hok 86400 Hin) as [_ Hfinite].
  split; [exact Hin |]. split; [exact Hfinite | reflexivity].
Defined.
